(** * md_to_mobile_html: a shallow embedding of the Markdown-to-HTML batch converter

    The development follows [src/md_to_mobile_html.py].  A Python [str] is a
    sequence of Unicode code points, so a string is a [list N] here; the
    directory the script works in is a finite map from entry names to nodes;
    the functions that touch the disk or the console live in a small
    state-and-exception monad. *)

From Stdlib Require Import NArith Ascii String DecimalString.
From stdpp Require Import gmap list sorting.

Local Open Scope N_scope.

(** ** Strings *)

(** A Python string: the list of its code points. *)
Abbreviation str := (list N).

(** Decoder for the literals of this file, which are written in UTF-8 as the
    source file is: [need] continuation bytes are still expected for the code
    point accumulated in [acc]. *)
Fixpoint utf8_go (need : nat) (acc : N) (bs : list N) : str :=
  match bs with
  | [] => []
  | b :: bs' =>
      match need with
      | S n =>
          let acc' := acc * 64 + b mod 64 in
          match n with
          | O => acc' :: utf8_go O 0 bs'
          | S _ => utf8_go n acc' bs'
          end
      | O =>
          if b <? 128 then b :: utf8_go O 0 bs'
          else if b <? 224 then utf8_go 1 (b mod 32) bs'
          else if b <? 240 then utf8_go 2 (b mod 16) bs'
          else utf8_go 3 (b mod 8) bs'
      end
  end.

Definition u (x : string) : str :=
  utf8_go O 0 (map N_of_ascii (list_ascii_of_string x)).
Arguments u _%_string : simpl never.

(** The double quote, which the literals above cannot hold. *)
Definition dq : str := [34].
(** The line feed. *)
Definition nl : str := [10].

Module Py.
(** The built-in string operations of Python that the script calls, after
    CPython's [Objects/unicodeobject.c] and [Lib/html/__init__.py]. *)

(** [_PyUnicode_IsWhitespace]. *)
Definition isspace (c : N) : bool :=
  ((9 <=? c) && (c <=? 13)) || ((28 <=? c) && (c <=? 32))
  || (c =? 133) || (c =? 160) || (c =? 5760)
  || ((8192 <=? c) && (c <=? 8202))
  || (c =? 8232) || (c =? 8233) || (c =? 8239) || (c =? 8287) || (c =? 12288).

(** [_PyUnicode_IsLinebreak]. *)
Definition is_linebreak (c : N) : bool :=
  ((10 <=? c) && (c <=? 13)) || ((28 <=? c) && (c <=? 30))
  || (c =? 133) || (c =? 8232) || (c =? 8233).

(** [c in chars]. *)
Definition contains (chars : str) (c : N) : bool := existsb (N.eqb c) chars.

Fixpoint drop_while (p : N -> bool) (s : str) : str :=
  match s with
  | [] => []
  | c :: s' => if p c then drop_while p s' else s
  end.

(** [s.lstrip()], [s.rstrip()], [s.strip()]. *)
Definition lstrip (s : str) : str := drop_while isspace s.
Definition rstrip (s : str) : str := rev (drop_while isspace (rev s)).
Definition strip (s : str) : str := rstrip (lstrip s).

(** [s.lstrip(chars)]: drops every leading character that occurs in [chars]. *)
Definition lstrip_chars (chars s : str) : str := drop_while (contains chars) s.

(** [s.startswith(p)]. *)
Fixpoint startswith (s p : str) {struct p} : bool :=
  match p with
  | [] => true
  | c :: p' =>
      match s with
      | [] => false
      | d :: s' => (d =? c) && startswith s' p'
      end
  end.

(** [s.endswith(p)]. *)
Definition endswith (s p : str) : bool := startswith (rev s) (rev p).

(** [s.splitlines()]: [cur] holds, reversed, the characters read since the
    last line boundary.  A carriage return followed by a line feed is one
    boundary, and no empty line is produced after a final boundary. *)
Fixpoint splitlines_from (cur : str) (s : str) : list str :=
  match s with
  | [] => match cur with [] => [] | _ :: _ => [rev cur] end
  | c :: rest =>
      if is_linebreak c then
        rev cur ::
          match rest with
          | d :: rest' =>
              if (c =? 13) && (d =? 10) then splitlines_from [] rest'
              else splitlines_from [] rest
          | [] => splitlines_from [] rest
          end
      else splitlines_from (c :: cur) rest
  end.

Definition splitlines (s : str) : list str := splitlines_from [] s.

(** [x or y] on strings: the empty string is false. *)
Definition or_ (x y : str) : str :=
  match x with [] => y | _ :: _ => x end.

(** [s.replace(old, new)] for a pattern [old] of one character. *)
Definition replace1 (old : N) (new : str) (s : str) : str :=
  flat_map (fun c => if c =? old then new else [c]) s.

(** [sep.join(parts)]. *)
Fixpoint join (sep : str) (parts : list str) : str :=
  match parts with
  | [] => []
  | [p] => p
  | p :: ps => p ++ sep ++ join sep ps
  end.

(** [html.escape(s)] with its default [quote=True]: five replacements, the
    ampersand first. *)
Definition html_escape (s : str) : str :=
  let s := replace1 38 (u "&amp;") s in
  let s := replace1 60 (u "&lt;") s in
  let s := replace1 62 (u "&gt;") s in
  let s := replace1 34 (u "&quot;") s in
  let s := replace1 39 (u "&#x27;") s in
  s.

(** [str(n)] for a natural number. *)
Definition str_of_nat (n : nat) : str :=
  map N_of_ascii (list_ascii_of_string (NilZero.string_of_uint (Nat.to_uint n))).

End Py.

(** ** The title guesser *)

(** The [for line in text.splitlines()] loop of [guess_title]. *)
Fixpoint guess_title_lines (lines : list str) (default : str) : str :=
  match lines with
  | [] => default
  | line :: rest =>
      let stripped := Py.strip line in
      if Py.startswith stripped (u "# ")
      then Py.or_ (Py.strip (Py.lstrip_chars (u "# ") stripped)) default
      else guess_title_lines rest default
  end.

Definition guess_title (text default : str) : str :=
  guess_title_lines (Py.splitlines text) default.

(** ** The page template *)

(** The lines of the [HTML_TEMPLATE] literal, with the escapes of the Python
    source resolved; doubled braces are still doubled, as [str.format]
    expects them. *)
Definition HTML_TEMPLATE_lines : list str :=
  [ u "<!DOCTYPE html>"
  ; u "<html lang=" ++ dq ++ u "zh-CN" ++ dq ++ u ">"
  ; u "<head>"
  ; u "  <meta charset=" ++ dq ++ u "utf-8" ++ dq ++ u " />"
  ; u "  <meta name=" ++ dq ++ u "viewport" ++ dq ++ u " content=" ++ dq ++ u "width=device-width, initial-scale=1, maximum-scale=1, viewport-fit=cover" ++ dq ++ u " />"
  ; u "  <title>{title}</title>"
  ; u "  <style>"
  ; u "    :root {{"
  ; u "      color-scheme: light dark;"
  ; u "      --bg: #ffffff;"
  ; u "      --fg: #111111;"
  ; u "      --muted: #666666;"
  ; u "      --accent: #1d9bf0;"
  ; u "      --border: #e0e0e0;"
  ; u "    }}"
  ; u "    @media (prefers-color-scheme: dark) {{"
  ; u "      :root {{"
  ; u "        --bg: #050505;"
  ; u "        --fg: #f5f5f5;"
  ; u "        --muted: #999999;"
  ; u "        --accent: #4aa8ff;"
  ; u "        --border: #333333;"
  ; u "      }}"
  ; u "    }}"
  ; u "    * {{ box-sizing: border-box; }}"
  ; u "    html, body {{"
  ; u "      margin: 0;"
  ; u "      padding: 0;"
  ; u "      background: var(--bg);"
  ; u "      color: var(--fg);"
  ; u "      font-family: -apple-system, BlinkMacSystemFont, system-ui, -system-ui, sans-serif;"
  ; u "      -webkit-text-size-adjust: 100%;"
  ; u "    }}"
  ; u "    body {{"
  ; u "      max-width: 720px;"
  ; u "      margin: 0 auto;"
  ; u "      padding: 12px 16px 40px;"
  ; u "      line-height: 1.7;"
  ; u "      font-size: 17px;"
  ; u "    }}"
  ; u "    header {{"
  ; u "      position: sticky;"
  ; u "      top: 0;"
  ; u "      padding: 8px 0 10px;"
  ; u "      margin: 0 0 8px;"
  ; u "      background: linear-gradient(to bottom, var(--bg) 70%, color-mix(in srgb, var(--bg) 90%, transparent));"
  ; u "      backdrop-filter: blur(8px);"
  ; u "      border-bottom: 1px solid var(--border);"
  ; u "      z-index: 10;"
  ; u "    }}"
  ; u "    h1 {{"
  ; u "      font-size: 22px;"
  ; u "      margin: 0 0 2px;"
  ; u "    }}"
  ; u "    .file-meta {{"
  ; u "      font-size: 12px;"
  ; u "      color: var(--muted);"
  ; u "    }}"
  ; u "    main {{"
  ; u "      margin-top: 8px;"
  ; u "    }}"
  ; u "    h2 {{ font-size: 20px; margin: 20px 0 6px; }}"
  ; u "    h3 {{ font-size: 18px; margin: 16px 0 4px; }}"
  ; u "    h4, h5, h6 {{ font-size: 16px; margin: 12px 0 4px; }}"
  ; u "    p {{ margin: 6px 0 10px; }}"
  ; u "    a {{ color: var(--accent); text-decoration: none; }}"
  ; u "    a:hover {{ text-decoration: underline; }}"
  ; u "    ul, ol {{ padding-left: 1.4em; margin: 4px 0 10px; }}"
  ; u "    li {{ margin: 2px 0 2px; }}"
  ; u "    .toc {{ list-style: none; padding-left: 0; margin: 8px 0 16px; }}"
  ; u "    .toc li {{ padding: 8px 10px; border-radius: 10px; border: 1px solid var(--border); margin: 6px 0; }}"
  ; u "    .toc a {{ display: block; }}"
  ; u "    .toc .title {{ font-size: 16px; font-weight: 600; }}"
  ; u "    .toc .file-name {{ font-size: 12px; color: var(--muted); }}"
  ; u "    code {{"
  ; u "      font-family: SFMono-Regular, ui-monospace, Menlo, Monaco, Consolas, " ++ dq ++ u "Liberation Mono" ++ dq ++ u ", " ++ dq ++ u "Courier New" ++ dq ++ u ", monospace;"
  ; u "      font-size: 0.9em;"
  ; u "      background: color-mix(in srgb, var(--bg) 85%, #888888);"
  ; u "      padding: 1px 4px;"
  ; u "      border-radius: 4px;"
  ; u "    }}"
  ; u "    pre {{"
  ; u "      background: color-mix(in srgb, var(--bg) 92%, #777777);"
  ; u "      padding: 8px 10px;"
  ; u "      border-radius: 8px;"
  ; u "      overflow-x: auto;"
  ; u "      font-size: 0.9em;"
  ; u "      line-height: 1.5;"
  ; u "    }}"
  ; u "    pre code {{"
  ; u "      background: none;"
  ; u "      padding: 0;"
  ; u "    }}"
  ; u "    blockquote {{"
  ; u "      margin: 6px 0 10px;"
  ; u "      padding: 4px 10px;"
  ; u "      border-left: 3px solid var(--accent);"
  ; u "      color: var(--muted);"
  ; u "      background: color-mix(in srgb, var(--bg) 96%, #777777);"
  ; u "      border-radius: 0 8px 8px 0;"
  ; u "    }}"
  ; u "    hr {{"
  ; u "      border: none;"
  ; u "      border-top: 1px dashed var(--border);"
  ; u "      margin: 16px 0;"
  ; u "    }}"
  ; u "    img {{"
  ; u "      max-width: 100%;"
  ; u "      display: block;"
  ; u "      margin: 8px auto;"
  ; u "      border-radius: 8px;"
  ; u "    }}"
  ; u "    table {{"
  ; u "      width: 100%;"
  ; u "      border-collapse: collapse;"
  ; u "      margin: 8px 0 12px;"
  ; u "      font-size: 0.9em;"
  ; u "    }}"
  ; u "    th, td {{"
  ; u "      border: 1px solid var(--border);"
  ; u "      padding: 4px 6px;"
  ; u "      text-align: left;"
  ; u "    }}"
  ; u "    th {{"
  ; u "      background: color-mix(in srgb, var(--bg) 92%, #777777);"
  ; u "    }}"
  ; u "  </style>"
  ; u "</head>"
  ; u "<body>"
  ; u "  <header>"
  ; u "    <h1>{title}</h1>"
  ; u "    <div class=" ++ dq ++ u "file-meta" ++ dq ++ u ">来自：{source_name}</div>"
  ; u "  </header>"
  ; u "  <main>"
  ; u "  {content}"
  ; u "  </main>"
  ; u "</body>"
  ; u "</html>"
  ].

(** Every line of the literal ends with a line feed. *)
Definition HTML_TEMPLATE : str :=
  flat_map (fun l => l ++ nl) HTML_TEMPLATE_lines.

(** [template.format] with keyword arguments [kw], for the replacement
    fields the template has: a doubled brace is one literal brace, [{name}]
    is keyword argument [name].  [parse_format] splits the template; [fld] holds, reversed, the
    name of the field being read.  A lone closing brace, an unfinished field
    or a brace inside a field name is refused, as is a name that [kw] lacks. *)
Inductive piece :=
| Lit (c : N)
| Field (name : str).

Fixpoint parse_format (fld : option str) (s : str) : option (list piece) :=
  match s with
  | [] => match fld with None => Some [] | Some _ => None end
  | c :: rest =>
      match fld with
      | Some name =>
          if c =? 125 then cons (Field (rev name)) <$> parse_format None rest
          else if c =? 123 then None
          else parse_format (Some (c :: name)) rest
      | None =>
          if c =? 123 then
            match rest with
            | d :: rest' =>
                if d =? 123 then cons (Lit 123) <$> parse_format None rest'
                else parse_format (Some []) rest
            | [] => None
            end
          else if c =? 125 then
            match rest with
            | d :: rest' =>
                if d =? 125 then cons (Lit 125) <$> parse_format None rest'
                else None
            | [] => None
            end
          else cons (Lit c) <$> parse_format None rest
      end
  end.

Fixpoint kw_lookup (kw : list (str * str)) (name : str) : option str :=
  match kw with
  | [] => None
  | (k, v) :: kw' => if decide (k = name) then Some v else kw_lookup kw' name
  end.

Fixpoint fill (kw : list (str * str)) (ps : list piece) : option str :=
  match ps with
  | [] => Some []
  | Lit c :: ps' => cons c <$> fill kw ps'
  | Field name :: ps' =>
      match kw_lookup kw name with
      | Some v => app v <$> fill kw ps'
      | None => None
      end
  end.

Definition format (template : str) (kw : list (str * str)) : option str :=
  match parse_format None template with
  | Some ps => fill kw ps
  | None => None
  end.

(** ** The directory and the effects *)

(** An entry of a subdirectory: a file, or a directory.  The text of a file
    is the string that [read_text] returns for it (decoded, its line ends
    translated), and [None] when it cannot be read as UTF-8 text. *)
Inductive leaf :=
| LFile (data : option str)
| LDir.

(** An entry of [BASE_DIR]. *)
Inductive node :=
| File (data : option str)
| Dir (children : gmap str leaf).

(** The exceptions the file operations raise. *)
Inductive exn :=
| ReadError (name : str)
| MkdirError (dir : str)
| WriteError (dir name : str)
| FormatError.

(** What a run can change: the entries of [BASE_DIR], the lines printed, and
    the log of the [write_text] calls that succeeded (directory, file name
    and text written). *)
Record world := World {
  disk : gmap str node;
  console : list str;
  written : list (str * str * str)
}.

Inductive outcome (A : Type) :=
| Return (a : A)
| Raise (e : exn).
Arguments Return {A} a.
Arguments Raise {A} e.

(** A computation either returns or raises, and in both cases leaves a world
    behind. *)
Definition M (A : Type) : Type := world -> outcome A * world.

Definition ret {A} (a : A) : M A := fun w => (Return a, w).
Definition raise {A} (e : exn) : M A := fun w => (Raise e, w).
Definition bind {A B} (m : M A) (k : A -> M B) : M B :=
  fun w =>
    match m w with
    | (Return a, w') => k a w'
    | (Raise e, w') => (Raise e, w')
    end.

Notation "'let!' x ':=' m 'in' k" := (bind m (fun x => k))
  (at level 10, x name, m at level 100, k at level 200).
Notation "m '>>>' k" := (bind m (fun _ => k))
  (at level 90, right associativity).

(** [for x in xs: body]. *)
Fixpoint for_ {A} (xs : list A) (body : A -> M unit) : M unit :=
  match xs with
  | [] => ret tt
  | x :: xs' => body x >>> for_ xs' body
  end.

(** A loop that appends one value per element to a list. *)
Fixpoint for_collect {A B} (xs : list A) (body : A -> M B) : M (list B) :=
  match xs with
  | [] => ret []
  | x :: xs' =>
      let! y := body x in
      let! ys := for_collect xs' body in
      ret (y :: ys)
  end.

(** [print(line)]. *)
Definition print (line : str) : M unit :=
  fun w => (Return tt, World (disk w) (console w ++ [line]) (written w)).

(** [(BASE_DIR / name).read_text(encoding="utf-8")]. *)
Definition read_text (name : str) : M str :=
  fun w =>
    match disk w !! name with
    | Some (File (Some text)) => (Return text, w)
    | _ => (Raise (ReadError name), w)
    end.

(** [(BASE_DIR / dir).mkdir(parents=True, exist_ok=True)]: creates the
    directory when nothing has that name, keeps an existing directory, and
    raises when a file has that name. *)
Definition mkdir (dir : str) : M unit :=
  fun w =>
    match disk w !! dir with
    | None => (Return tt, World (<[dir := Dir ∅]> (disk w)) (console w) (written w))
    | Some (Dir _) => (Return tt, w)
    | Some (File _) => (Raise (MkdirError dir), w)
    end.

(** The path [dir/name] below [BASE_DIR], as [str(path)] prints it. *)
Definition rel_path (dir name : str) : str := dir ++ u "/" ++ name.

(** [(BASE_DIR / dir / name).write_text(text, encoding="utf-8")]: creates or
    overwrites the file; raises when [dir] is not a directory or [name] is
    one.  The text is taken to be one that UTF-8 encodes, as the text of a
    file read as UTF-8 and the literals of the script are: on a text with a
    lone surrogate (a file name that is not UTF-8 is decoded to one) the
    call of Python raises after it has opened, and so emptied, the file,
    which is outside this model. *)
Definition write_text (dir name text : str) : M unit :=
  fun w =>
    match disk w !! dir with
    | Some (Dir children) =>
        match children !! name with
        | Some LDir => (Raise (WriteError dir name), w)
        | _ =>
            (Return tt,
             World (<[dir := Dir (<[name := LFile (Some text)]> children)]> (disk w))
                   (console w)
                   (written w ++ [(dir, name, text)]))
        end
    | _ => (Raise (WriteError dir name), w)
    end.

(** ** Paths *)

(** [s.rfind(c)]: the index of the last occurrence of [c]. *)
Fixpoint rfind (c : N) (s : str) : option nat :=
  match s with
  | [] => None
  | d :: s' =>
      match rfind c s' with
      | Some i => Some (S i)
      | None => if d =? c then Some O else None
      end
  end.

(** [PurePath.stem] (CPython up to 3.13): the name without its last suffix;
    a dot that is the first or the last character of the name starts no
    suffix. *)
Definition stem (name : str) : str :=
  match rfind 46 name with
  | Some i =>
      if (0 <? i)%nat && (i <? length name - 1)%nat then take i name else name
  | None => name
  end.

(** The order of [sorted] on paths of one directory: the names compared
    code point by code point. *)
Fixpoint str_leb (a b : str) : bool :=
  match a, b with
  | [], _ => true
  | _ :: _, [] => false
  | x :: a', y :: b' => (x <? y) || ((x =? y) && str_leb a' b')
  end.

Definition str_le (a b : str) : Prop := str_leb a b = true.

#[global] Instance str_le_dec : RelDecision str_le.
Proof. intros a b. unfold str_le. apply _. Defined.

Definition is_file (x : node) : bool :=
  match x with File _ => true | Dir _ => false end.

(** The pattern of [directory.glob], a star followed by [.md]: the entry's
    name ends with [.md] (the star also matches the empty string and a
    leading dot). *)
Definition glob_md (name : str) : bool := Py.endswith name (u ".md").

(** [sorted] of the regular files that [directory.glob] yields in
    [BASE_DIR]; a path is represented by its name. *)
Definition find_markdown_files (d : gmap str node) : list str :=
  merge_sort str_le
    (fst <$> filter (fun e => glob_md (fst e) && is_file (snd e)) (map_to_list d)).

(** ** The converter *)

(** [OUTPUT_DIR], below [BASE_DIR]; [SOURCE_DIR] is [BASE_DIR] itself. *)
Definition OUTPUT_DIR : str := u "docs".

Section Converter.

(** [_markdown]: the Markdown engine when the import succeeded, as the
    function from a text to the HTML that [_markdown.markdown] returns for it
    with the extensions and the output format the script asks for. *)
Variable markdown : option (str -> str).

Definition render_markdown (text : str) : str :=
  match markdown with
  | Some engine => engine text
  | None =>
      let escaped := Py.html_escape text in
      u "<pre style='white-space: pre-wrap'>" ++ escaped ++ u "</pre>"
  end.

(** [HTML_TEMPLATE.format(title=..., source_name=..., content=...)]. *)
Definition format_page (title source_name content : str) : M str :=
  match format HTML_TEMPLATE
          [(u "title", title); (u "source_name", source_name); (u "content", content)] with
  | Some html => ret html
  | None => raise FormatError
  end.

(** [src] is the name of a file of [BASE_DIR] and [dst_dir] the name of a
    directory below it; the path returned is relative to [BASE_DIR]. *)
Definition convert_one_file (src dst_dir : str) : M str :=
  let! text := read_text src in
  let title := guess_title text (stem src) in
  let html_body := render_markdown text in
  let! html := format_page (Py.html_escape title) (Py.html_escape src) html_body in
  mkdir dst_dir >>>
  let out_name := stem src ++ u ".html" in
  write_text dst_dir out_name html >>>
  ret (rel_path dst_dir out_name).

(** One [<li>] of the table of contents. *)
Definition toc_item (item : str * str * str) : str :=
  let '(src_name, title, href) := item in
  u "<li>"
  ++ (u "<a href=" ++ dq ++ Py.html_escape href ++ dq ++ u ">")
  ++ (u "<div class='title'>" ++ Py.html_escape title ++ u "</div>")
  ++ (u "<div class='file-name'>" ++ Py.html_escape src_name ++ u "</div>")
  ++ u "</a>"
  ++ u "</li>".

(** The first loop of [build_index_page]: one [(name, title, href)] triple
    per source, each source read again. *)
Definition index_items (md_files : list str) : M (list (str * str * str)) :=
  for_collect md_files (fun src =>
    let! text := read_text src in
    let title := guess_title text (stem src) in
    let href := stem src ++ u ".html" in
    ret (src, title, href)).

Definition index_parts (items : list (str * str * str)) : list str :=
  [u "<section>"; u "<h2>目录</h2>"; u "<ul class=" ++ dq ++ u "toc" ++ dq ++ u ">"]
  ++ map toc_item items
  ++ [u "</ul>"; u "</section>"].

Definition build_index_page (md_files : list str) (dst_dir : str) : M str :=
  let! items := index_items md_files in
  let content := Py.join nl (index_parts items) in
  let! html := format_page (Py.html_escape (u "网球自学指南"))
                           (Py.html_escape (u "目录 index")) content in
  mkdir dst_dir >>>
  write_text dst_dir (u "index.html") html >>>
  ret (rel_path dst_dir (u "index.html")).

(** [main] returns the exit status. *)
Definition main (argv : list str) : M nat :=
  (match markdown with
   | None =>
       print (u "[提示] 未检测到 'markdown' 库，将使用简单文本模式。") >>>
       print (u "       可选：运行 'pip install markdown' 后，重新执行本脚本，效果更好。")
   | Some _ => ret tt
   end) >>>
  fun w =>
  let md_files := find_markdown_files (disk w) in
  (match md_files with
   | [] =>
       print (u "未在当前目录找到任何 .md 文件。") >>>
       ret O
   | _ :: _ =>
       print (u "发现 " ++ Py.str_of_nat (length md_files)
              ++ u " 个 Markdown 文件，开始转换……") >>>
       for_ md_files (fun path =>
         let! out := convert_one_file path OUTPUT_DIR in
         print (u "- " ++ path ++ u "  ->  " ++ out)) >>>
       let! index_path := build_index_page md_files OUTPUT_DIR in
       print (u "- 目录首页  ->  " ++ index_path) >>>
       print (u "完成！可以在 'docs' 文件夹中用浏览器或 GitHub Pages 打开这些 HTML 文件（入口为 index.html）。") >>>
       ret O
   end) w.

End Converter.

(** A run of the script on the directory [d], from an empty console. *)
Definition run (markdown : option (str -> str)) (d : gmap str node) : outcome nat * world :=
  main markdown [] (World d [] []).

(** ** The template, split at its fields *)

(** The runs of literal characters that the replacement fields separate. *)
Fixpoint literal_runs (ps : list piece) : list str :=
  match ps with
  | [] => [[]]
  | Lit c :: ps' =>
      match literal_runs ps' with
      | r :: rs => (c :: r) :: rs
      | [] => [[c]]
      end
  | Field _ :: ps' => [] :: literal_runs ps'
  end.

Definition template_runs : list str :=
  Eval vm_compute in
    match parse_format None HTML_TEMPLATE with
    | Some ps => literal_runs ps
    | None => []
    end.

(** The literal text before the first field, between two fields, and after
    the last one. *)
Definition page_lit (i : nat) : str := nth i template_runs [].

(** The template with its four fields filled: the title twice, the source
    name, the body. *)
Definition filled_template (title source_name content : str) : str :=
  page_lit 0 ++ title ++ page_lit 1 ++ title ++ page_lit 2
  ++ source_name ++ page_lit 3 ++ content ++ page_lit 4.

(** The characters with which markup could be opened or an attribute
    closed. *)
Definition markup_char (c : N) : bool :=
  (c =? 60) || (c =? 62) || (c =? 34) || (c =? 39).

(** ** The state of the directory, read off *)

Definition readable (d : gmap str node) (src : str) : bool :=
  match d !! src with
  | Some (File (Some _)) => true
  | _ => false
  end.

Definition text_of (d : gmap str node) (src : str) : str :=
  match d !! src with
  | Some (File (Some text)) => text
  | _ => []
  end.

Definition children_of (d : gmap str node) (dir : str) : gmap str leaf :=
  match d !! dir with
  | Some (Dir children) => children
  | _ => ∅
  end.

(** [dir] can be made a directory and [name] can be written in it. *)
Definition writable (d : gmap str node) (dir name : str) : bool :=
  match d !! dir with
  | None => true
  | Some (Dir children) =>
      match children !! name with
      | Some LDir => false
      | _ => true
      end
  | Some (File _) => false
  end.

(** The directory after [dir/name] has been written. *)
Definition put_file (dir name text : str) (d : gmap str node) : gmap str node :=
  <[dir := Dir (<[name := LFile (Some text)]> (children_of d dir))]> d.

(** The file [dir/name], when it is a readable file. *)
Definition file_at (d : gmap str node) (dir name : str) : option str :=
  match children_of d dir !! name with
  | Some (LFile (Some text)) => Some text
  | _ => None
  end.

(** The name of the page of a source, and the page itself. *)
Definition out_name (src : str) : str := stem src ++ u ".html".

Definition title_of (d : gmap str node) (src : str) : str :=
  guess_title (text_of d src) (stem src).

Definition converted_page (markdown : option (str -> str))
    (d : gmap str node) (src : str) : str :=
  filled_template (Py.html_escape (title_of d src)) (Py.html_escape src)
    (render_markdown markdown (text_of d src)).

Definition index_entry (d : gmap str node) (src : str) : str * str * str :=
  (src, title_of d src, out_name src).

Definition index_body (d : gmap str node) (md_files : list str) : str :=
  Py.join nl (index_parts (map (index_entry d) md_files)).

Definition index_page (d : gmap str node) (md_files : list str) : str :=
  filled_template (Py.html_escape (u "网球自学指南"))
    (Py.html_escape (u "目录 index")) (index_body d md_files).

(** The entry [name] is a regular file. *)
Definition is_source (d : gmap str node) (name : str) : bool :=
  match d !! name with
  | Some (File _) => true
  | _ => false
  end.

(** What a run can observe of a directory when it writes into [dir] only:
    which entries are files, which of them can be read and what they hold,
    and which names of [dir] can be written. *)
Definition same_view (dir : str) (d d' : gmap str node) : Prop :=
  (forall name, is_source d' name = is_source d name)
  /\ (forall src, readable d' src = readable d src)
  /\ (forall src, text_of d' src = text_of d src)
  /\ (forall name, writable d' dir name = writable d dir name).

(** The exception of a write that cannot be done: from [mkdir] when a file
    stands where the directory should be, from [write_text] otherwise. *)
Definition write_error (d : gmap str node) (dir name : str) : exn :=
  if is_source d dir then MkdirError dir else WriteError dir name.

(** The directory after the writes of a log, in their order. *)
Definition replay (log : list (str * str * str)) (d : gmap str node) : gmap str node :=
  foldl (fun d e => put_file e.1.1 e.1.2 e.2 d) d log.


(** The source can be read and its page can be written. *)
Definition convertible (d : gmap str node) (dir src : str) : bool :=
  readable d src && writable d dir (out_name src).

(** The write that converting [src] is. *)
Definition conversion (markdown : option (str -> str)) (d : gmap str node)
    (dir src : str) : str * str * str :=
  (dir, out_name src, converted_page markdown d src).

(** The exception of a conversion that cannot be done. *)
Definition conversion_error (d : gmap str node) (dir src : str) : exn :=
  if readable d src then write_error d dir (out_name src) else ReadError src.

(** The sources that the loop of [main] converts: those before the first one
    that cannot be converted. *)
Fixpoint converted (d : gmap str node) (dir : str) (md_files : list str) : list str :=
  match md_files with
  | [] => []
  | src :: rest =>
      if convertible d dir src then src :: converted d dir rest else []
  end.

(** How the loop of [main] ends. *)
Fixpoint loop_outcome (d : gmap str node) (dir : str) (md_files : list str) : outcome unit :=
  match md_files with
  | [] => Return tt
  | src :: rest =>
      if convertible d dir src then loop_outcome d dir rest
      else Raise (conversion_error d dir src)
  end.

(** The lines that [main] prints: the count of the sources, and one line per
    converted source. *)
Definition found_line (md_files : list str) : str :=
  u "发现 " ++ Py.str_of_nat (length md_files) ++ u " 个 Markdown 文件，开始转换……".

Definition progress_line (src : str) : str :=
  u "- " ++ src ++ u "  ->  " ++ rel_path OUTPUT_DIR (out_name src).

(** The advisory that [main] prints first when the engine is missing. *)
Definition advisory (markdown : option (str -> str)) : list str :=
  match markdown with
  | None =>
      [u "[提示] 未检测到 'markdown' 库，将使用简单文本模式。";
       u "       可选：运行 'pip install markdown' 后，重新执行本脚本，效果更好。"]
  | Some _ => []
  end.

(** What a run does, read off the directory it starts from: how [main]
    ends, the writes it does and the lines it prints. *)
Definition main_outcome (d : gmap str node) : outcome nat :=
  let md_files := find_markdown_files d in
  match md_files with
  | [] => Return O
  | _ :: _ =>
      match loop_outcome d OUTPUT_DIR md_files with
      | Raise e => Raise e
      | Return _ =>
          if writable d OUTPUT_DIR (u "index.html") then Return O
          else Raise (write_error d OUTPUT_DIR (u "index.html"))
      end
  end.

Definition main_log (markdown : option (str -> str)) (d : gmap str node) :
    list (str * str * str) :=
  let md_files := find_markdown_files d in
  map (conversion markdown d OUTPUT_DIR) (converted d OUTPUT_DIR md_files)
  ++ match md_files, main_outcome d with
     | _ :: _, Return _ => [(OUTPUT_DIR, u "index.html", index_page d md_files)]
     | _, _ => []
     end.

Definition main_lines (markdown : option (str -> str)) (d : gmap str node) : list str :=
  let md_files := find_markdown_files d in
  advisory markdown
  ++ match md_files with
     | [] => [u "未在当前目录找到任何 .md 文件。"]
     | _ :: _ =>
         [found_line md_files]
         ++ map progress_line (converted d OUTPUT_DIR md_files)
         ++ match main_outcome d with
            | Return _ =>
                [u "- 目录首页  ->  " ++ rel_path OUTPUT_DIR (u "index.html");
                 u "完成！可以在 'docs' 文件夹中用浏览器或 GitHub Pages 打开这些 HTML 文件（入口为 index.html）。"]
            | Raise _ => []
            end
     end.

(** ** Sample directories *)

(** The scenario of the specification, next to a subdirectory. *)
Definition sample_dir : gmap str node :=
  <[u "a.md" := File (Some (u "# Hello" ++ nl ++ u "Body text."))]>
  (<[u "b.md" := File (Some (u "No heading here."))]>
  (<[u "notes" := Dir {[u "c.md" := LFile (Some (u "# Nested"))]}]> ∅)).

(** A directory whose second source cannot be read. *)
Definition broken_dir : gmap str node :=
  <[u "a.md" := File (Some (u "# Hello"))]>
  (<[u "b.md" := File None]>
  (<[u "c.md" := File (Some (u "# Last"))]> ∅)).

(** A directory without any source. *)
Definition bare_dir : gmap str node :=
  <[u "readme.txt" := File (Some (u "# Hello"))]>
  (<[u "old.md" := Dir ∅]> ∅).

(** A directory one of whose sources is named like the index page. *)
Definition index_dir : gmap str node :=
  <[u "a.md" := File (Some (u "# Hello"))]>
  (<[u "index.md" := File (Some (u "# Home"))]> ∅).

(** A directory in which a regular file has the name of the output
    directory. *)
Definition blocked_dir : gmap str node :=
  <[u "a.md" := File (Some (u "# Hello"))]>
  (<[u "docs" := File (Some (u "not a directory"))]> ∅).


(** A directory whose source has markup characters in its name and in its
    heading, and an engine that wraps the text in a paragraph as it is. *)
Definition escaping_dir : gmap str node :=
  {[u "a&b's.md" := File (Some (u "# <Tom> & " ++ dq ++ u "Jerry" ++ dq))]}.

Definition sample_engine (text : str) : str := u "<p>" ++ text ++ u "</p>".

(** A directory whose source has a number sign in its name. *)
Definition hash_dir : gmap str node :=
  {[u "a#b.md" := File (Some (u "# Notes"))]}.

(** ** The title guesser as the specification words it *)

(** A level-1 heading in the specification's words: a line beginning with the
    heading marker followed by a space. *)
Definition spec_is_heading (line : str) : bool := Py.startswith line (u "# ").

(** The text of such a line with only the marker and the surrounding
    whitespace stripped. *)
Definition spec_heading_text (line : str) : str := Py.strip (drop 1 line).

Definition spec_guess_title (text default : str) : str :=
  match List.find spec_is_heading (Py.splitlines text) with
  | Some line => Py.or_ (spec_heading_text line) default
  | None => default
  end.

(** What the code tests and what it would return if it removed the marker
    alone: the line is stripped of surrounding whitespace before it is
    tested. *)
Definition is_heading_line (line : str) : bool :=
  Py.startswith (Py.strip line) (u "# ").

Definition heading_text (line : str) : str :=
  Py.strip (drop 1 (Py.strip line)).

(** ** Reading the fallback fragment back *)

(** The reversal of the escaping that the specification appeals to:
    [html.unescape] of the standard library on the five character references
    that [html.escape] emits.  The text is read from left to right; [skip]
    characters of the reference just recognised are still to be dropped; an
    ampersand that starts none of the five references is kept. *)
Fixpoint unescape_from (skip : nat) (s : str) : str :=
  match s with
  | [] => []
  | c :: rest =>
      match skip with
      | S n => unescape_from n rest
      | O =>
          if c =? 38 then
            if Py.startswith rest (u "amp;") then 38 :: unescape_from 4 rest
            else if Py.startswith rest (u "lt;") then 60 :: unescape_from 3 rest
            else if Py.startswith rest (u "gt;") then 62 :: unescape_from 3 rest
            else if Py.startswith rest (u "quot;") then 34 :: unescape_from 5 rest
            else if Py.startswith rest (u "#x27;") then 39 :: unescape_from 5 rest
            else c :: unescape_from O rest
          else c :: unescape_from O rest
      end
  end.

Definition html_unescape (s : str) : str := unescape_from O s.

Definition strip_prefix (p s : str) : option str :=
  if Py.startswith s p then Some (drop (length p) s) else None.

Definition strip_suffix (p s : str) : option str :=
  if Py.endswith s p then Some (take (length s - length p) s) else None.

(** The text content of a fragment that consists of the one [pre] element
    the fallback path writes: what stands between its start tag and its end
    tag. *)
Definition pre_text_content (fragment : str) : option str :=
  match strip_prefix (u "<pre style='white-space: pre-wrap'>") fragment with
  | Some rest => strip_suffix (u "</pre>") rest
  | None => None
  end.

(** [html.escape] character by character. *)
Definition escape_char (c : N) : str :=
  if c =? 38 then u "&amp;"
  else if c =? 60 then u "&lt;"
  else if c =? 62 then u "&gt;"
  else if c =? 34 then u "&quot;"
  else if c =? 39 then u "&#x27;"
  else [c].

(** A text with each of the five characters of [escape_char] replaced by
    its character reference. *)
Definition escaped_text (s : str) : str := flat_map escape_char s.

(** The body of the index page, written out: one line per item between the
    heading and the end of the list, each naming the escaped link, title and
    file name of its source. *)
Definition toc_entry_text (item : str * str * str) : str :=
  let '(src_name, title, href) := item in
  u "<li><a href=" ++ dq ++ escaped_text href ++ dq
  ++ u "><div class='title'>" ++ escaped_text title
  ++ u "</div><div class='file-name'>" ++ escaped_text src_name
  ++ u "</div></a></li>".

Definition toc_body (items : list (str * str * str)) : str :=
  u "<section>" ++ nl ++ u "<h2>目录</h2>" ++ nl
  ++ u "<ul class=" ++ dq ++ u "toc" ++ dq ++ u ">" ++ nl
  ++ flat_map (fun item => toc_entry_text item ++ nl) items
  ++ u "</ul>" ++ nl ++ u "</section>".

(** The path of a relative reference (RFC 3986, sections 3.3 to 3.5 and
    4.2): what stands before its first question mark or number sign, which
    start the query and the fragment. *)
Fixpoint reference_path (ref : str) : str :=
  match ref with
  | [] => []
  | c :: rest => if (c =? 63) || (c =? 35) then [] else c :: reference_path rest
  end.

(** A text that UTF-8 encodes: it holds no surrogate code point. *)
Definition is_surrogate (c : N) : bool := (55296 <=? c) && (c <=? 57343).

Definition encodable (s : str) : bool := forallb (fun c => negb (is_surrogate c)) s.

(** * Properties *)

(** ** Strings *)

Lemma drop_while_snoc (p : N -> bool) (s : str) (c : N) :
  p c = false -> Py.drop_while p (s ++ [c]) = Py.drop_while p s ++ [c].
Proof.
  intros Hc. induction s as [|d s IH]; simpl.
  - now rewrite Hc.
  - destruct (p d); [exact IH | reflexivity].
Qed.

Lemma rstrip_cons (c : N) (s : str) :
  Py.isspace c = false -> Py.rstrip (c :: s) = c :: Py.rstrip s.
Proof.
  intros Hc. unfold Py.rstrip. simpl rev.
  rewrite drop_while_snoc by exact Hc.
  now rewrite rev_app_distr.
Qed.

(** ** The title guesser *)

Lemma guess_title_lines_none (lines : list str) (default : str) :
  List.find is_heading_line lines = None ->
  guess_title_lines lines default = default.
Proof.
  induction lines as [|line rest IH]; cbn [guess_title_lines List.find]; [reflexivity|].
  unfold is_heading_line at 1.
  destruct (Py.startswith (Py.strip line) (u "# ")); [discriminate | exact IH].
Qed.

(** The loop returns at the first line that passes the test, whatever comes
    after it. *)
Lemma guess_title_lines_some (lines : list str) (default line : str) :
  List.find is_heading_line lines = Some line ->
  guess_title_lines lines default
  = Py.or_ (Py.strip (Py.lstrip_chars (u "# ") (Py.strip line))) default.
Proof.
  induction lines as [|l rest IH]; cbn [guess_title_lines List.find]; [discriminate|].
  unfold is_heading_line at 1.
  destruct (Py.startswith (Py.strip l) (u "# ")) eqn:E.
  - intros [= ->]. reflexivity.
  - exact IH.
Qed.

Lemma startswith_marker (s : str) :
  Py.startswith s (u "# ") = true -> exists r, s = 35 :: 32 :: r.
Proof.
  destruct s as [|a [|b r]]; simpl; try discriminate.
  - rewrite andb_false_r. discriminate.
  - intros H. apply andb_prop in H as [Ha H]. apply andb_prop in H as [Hb _].
    apply N.eqb_eq in Ha, Hb. subst. now exists r.
Qed.

(** Dropping every leading marker and space gives the text behind the first
    marker, unless that text starts with a marker of its own. *)
Lemma strip_after_marker (r : str) :
  head (Py.strip r) <> Some 35 ->
  Py.strip (Py.drop_while (Py.contains [35; 32]) r) = Py.strip r.
Proof.
  induction r as [|c r IH]; [reflexivity|].
  intros Hhd. cbn [Py.drop_while].
  destruct (Py.contains [35; 32] c) eqn:Hc; [|reflexivity].
  assert (c = 35 \/ c = 32) as [-> | ->].
  { unfold Py.contains in Hc. cbn [existsb] in Hc.
    destruct (N.eqb_spec c 35); [now left|].
    destruct (N.eqb_spec c 32); [now right|discriminate]. }
  - exfalso. apply Hhd. unfold Py.strip, Py.lstrip. cbn [Py.drop_while].
    change (Py.isspace 35) with false. cbv iota.
    now rewrite rstrip_cons.
  - apply IH. exact Hhd.
Qed.

Lemma heading_text_agrees (line : str) :
  is_heading_line line = true ->
  head (heading_text line) <> Some 35 ->
  Py.strip (Py.lstrip_chars (u "# ") (Py.strip line)) = heading_text line.
Proof.
  unfold is_heading_line, heading_text. intros Hst Hhd.
  destruct (startswith_marker _ Hst) as [r Hr]. rewrite Hr in *.
  change (Py.lstrip_chars (u "# ") (35 :: 32 :: r))
    with (Py.drop_while (Py.contains [35; 32]) r).
  change (Py.strip (drop 1 (35 :: 32 :: r))) with (Py.strip r) in *.
  now apply strip_after_marker.
Qed.

(** C1 (as amended).  [guess_title] scans the lines in order and selects the
    first line that, once stripped of surrounding whitespace, begins with the
    marker followed by a space.  Without such a line it returns the fallback.
    With one, and when the text of that line with only the marker and the
    surrounding whitespace stripped does not itself begin with a marker, it
    returns that text, or the fallback when that text is empty. *)
Theorem guess_title_first_heading (text default : str) :
  (List.find is_heading_line (Py.splitlines text) = None ->
   guess_title text default = default)
  /\ (forall line : str,
        List.find is_heading_line (Py.splitlines text) = Some line ->
        head (heading_text line) <> Some 35 ->
        guess_title text default = Py.or_ (heading_text line) default).
Proof.
  split.
  - apply guess_title_lines_none.
  - intros line Hfind Hhd. unfold guess_title.
    rewrite (guess_title_lines_some _ _ _ Hfind).
    rewrite heading_text_agrees; [reflexivity| |exact Hhd].
    apply find_some in Hfind. apply Hfind.
Qed.

Lemma guess_title_first_heading_witness :
  List.find is_heading_line (Py.splitlines (u "intro" ++ nl ++ u "  # Hello  " ++ nl ++ u "# Other"))
  = Some (u "  # Hello  ")
  /\ head (heading_text (u "  # Hello  ")) <> Some 35
  /\ guess_title (u "intro" ++ nl ++ u "  # Hello  " ++ nl ++ u "# Other") (u "notes")
     = Py.or_ (heading_text (u "  # Hello  ")) (u "notes").
Proof.
  split; [reflexivity|]. split; [vm_compute; discriminate|].
  apply (proj2 (guess_title_first_heading _ (u "notes")) (u "  # Hello  ")).
  - reflexivity.
  - vm_compute. discriminate.
Defined.

(** C1 (as stated) fails: an indented heading line does not begin with the
    marker, so the specification's reading finds no heading and answers with
    the fallback, while the code strips the line first and returns the
    heading's text. *)
Lemma guess_title_indented_heading :
  guess_title (u "  # Hello") (u "notes") = u "Hello"
  /\ spec_guess_title (u "  # Hello") (u "notes") = u "notes"
  /\ guess_title (u "  # Hello") (u "notes") <> spec_guess_title (u "  # Hello") (u "notes").
Proof. repeat split; vm_compute; discriminate. Qed.

(** A heading whose text begins with a marker loses it: [lstrip] takes a set
    of characters, not a prefix. *)
Example guess_title_drops_leading_markers :
  guess_title (u "# #1 seed") (u "notes") = u "1 seed"
  /\ guess_title (u "# #") (u "notes") = u "notes".
Proof. split; reflexivity. Qed.

(** ** Escaping *)

Lemma replace1_flat_map (old : N) (new : str) (f : N -> str) (s : str) :
  Py.replace1 old new (flat_map f s)
  = flat_map (fun c => Py.replace1 old new (f c)) s.
Proof.
  unfold Py.replace1. induction s as [|c s IH]; simpl; [reflexivity|].
  now rewrite flat_map_app, IH.
Qed.

Lemma replace1_other (old : N) (new : str) (c : N) :
  c <> old -> Py.replace1 old new [c] = [c].
Proof.
  intros Hne. unfold Py.replace1. simpl.
  destruct (N.eqb_spec c old); [contradiction|reflexivity].
Qed.

(** The five replacements never meet: the later ones find nothing to replace
    in what the earlier ones wrote. *)
Lemma html_escape_flat_map (s : str) :
  Py.html_escape s = flat_map escape_char s.
Proof.
  unfold Py.html_escape.
  unfold Py.replace1 at 5.
  rewrite !replace1_flat_map.
  apply flat_map_ext. intros c. unfold escape_char.
  destruct (N.eqb_spec c 38) as [->|H38]; [reflexivity|].
  destruct (N.eqb_spec c 60) as [->|H60]; [reflexivity|].
  rewrite (replace1_other 60) by assumption.
  destruct (N.eqb_spec c 62) as [->|H62]; [reflexivity|].
  rewrite (replace1_other 62) by assumption.
  destruct (N.eqb_spec c 34) as [->|H34]; [reflexivity|].
  rewrite (replace1_other 34) by assumption.
  destruct (N.eqb_spec c 39) as [->|H39]; [reflexivity|].
  now rewrite (replace1_other 39) by assumption.
Qed.

Lemma unescape_escape_char (c : N) (rest : str) :
  unescape_from O (escape_char c ++ rest) = c :: unescape_from O rest.
Proof.
  unfold escape_char.
  destruct (N.eqb_spec c 38) as [->|H38]; [reflexivity|].
  destruct (N.eqb_spec c 60) as [->|H60]; [reflexivity|].
  destruct (N.eqb_spec c 62) as [->|H62]; [reflexivity|].
  destruct (N.eqb_spec c 34) as [->|H34]; [reflexivity|].
  destruct (N.eqb_spec c 39) as [->|H39]; [reflexivity|].
  cbn [app unescape_from].
  destruct (N.eqb_spec c 38); [contradiction|reflexivity].
Qed.

Lemma html_unescape_escape (s : str) :
  html_unescape (Py.html_escape s) = s.
Proof.
  rewrite html_escape_flat_map. unfold html_unescape.
  induction s as [|c s IH]; [reflexivity|].
  cbn [flat_map]. rewrite unescape_escape_char. now rewrite IH.
Qed.

Lemma startswith_app (p s : str) : Py.startswith (p ++ s) p = true.
Proof.
  induction p as [|c p IH]; [reflexivity|].
  simpl. now rewrite N.eqb_refl, IH.
Qed.

Lemma strip_prefix_app (p s : str) : strip_prefix p (p ++ s) = Some s.
Proof.
  unfold strip_prefix. rewrite startswith_app. now rewrite drop_app_length.
Qed.

Lemma strip_suffix_app (p s : str) : strip_suffix p (s ++ p) = Some s.
Proof.
  unfold strip_suffix, Py.endswith.
  rewrite rev_app_distr, startswith_app.
  rewrite length_app, Nat.add_sub. now rewrite take_app_length.
Qed.

(** C3.  On the fallback path the fragment is one [pre] element whose text
    content, un-escaped, is the raw document text. *)
Theorem fallback_roundtrip (text : str) :
  html_unescape <$> pre_text_content (render_markdown None text) = Some text.
Proof.
  unfold render_markdown, pre_text_content.
  rewrite strip_prefix_app, strip_suffix_app. simpl.
  now rewrite html_unescape_escape.
Qed.

Example fallback_script_ex :
  render_markdown None (u "<script>alert(1)</script>")
  = u "<pre style='white-space: pre-wrap'>&lt;script&gt;alert(1)&lt;/script&gt;</pre>".
Proof. reflexivity. Qed.

(** ** The template *)

Lemma fill_lits (kw : list (str * str)) (l : str) (ps : list piece) :
  fill kw (map Lit l ++ ps) = app l <$> fill kw ps.
Proof.
  induction l as [|c l IH]; simpl.
  - now destruct (fill kw ps).
  - rewrite IH. now destruct (fill kw ps).
Qed.

Lemma parse_template :
  parse_format None HTML_TEMPLATE
  = Some (map Lit (page_lit 0) ++ Field (u "title")
          :: map Lit (page_lit 1) ++ Field (u "title")
          :: map Lit (page_lit 2) ++ Field (u "source_name")
          :: map Lit (page_lit 3) ++ Field (u "content")
          :: map Lit (page_lit 4)).
Proof. vm_compute. reflexivity. Qed.

Lemma format_template (title source_name content : str) :
  format HTML_TEMPLATE
    [(u "title", title); (u "source_name", source_name); (u "content", content)]
  = Some (filled_template title source_name content).
Proof.
  unfold format. rewrite parse_template.
  repeat (rewrite fill_lits; cbn [fill]).
  change (kw_lookup _ (u "title")) with (Some title).
  change (kw_lookup _ (u "source_name")) with (Some source_name).
  change (kw_lookup _ (u "content")) with (Some content).
  cbn [fill]. rewrite <- (app_nil_r (map Lit (page_lit 4))), fill_lits.
  cbn [fill fmap option_fmap option_map]. unfold filled_template.
  now rewrite app_nil_r.
Qed.

Lemma format_page_eq (title source_name content : str) :
  format_page title source_name content
  = ret (filled_template title source_name content).
Proof. unfold format_page. now rewrite format_template. Qed.

(** Where the fields stand: the title in the [title] and [h1] elements, the
    source name in the attribution line, the body in [main]. *)
Example page_lit_title :
  Py.endswith (page_lit 0) (u "<title>") = true
  /\ Py.startswith (page_lit 1) (u "</title>") = true
  /\ Py.endswith (page_lit 1) (u "<h1>") = true.
Proof. repeat split. Qed.

Example page_lit_source :
  page_lit 2 = u "</h1>" ++ nl ++ u "    <div class=" ++ dq ++ u "file-meta" ++ dq ++ u ">来自："
  /\ page_lit 3 = u "</div>" ++ nl ++ u "  </header>" ++ nl ++ u "  <main>" ++ nl ++ u "  "
  /\ page_lit 4 = nl ++ u "  </main>" ++ nl ++ u "</body>" ++ nl ++ u "</html>" ++ nl.
Proof. repeat split. Qed.

Lemma escape_char_no_markup (c : N) :
  forallb (fun x => negb (markup_char x)) (escape_char c) = true.
Proof.
  unfold escape_char.
  destruct (N.eqb_spec c 38); [reflexivity|].
  destruct (c =? 60) eqn:E60; [reflexivity|].
  destruct (c =? 62) eqn:E62; [reflexivity|].
  destruct (c =? 34) eqn:E34; [reflexivity|].
  destruct (c =? 39) eqn:E39; [reflexivity|].
  cbn [forallb]. unfold markup_char. now rewrite E60, E62, E34, E39.
Qed.

(** Escaped text holds no character that opens markup or closes a quoted
    attribute. *)
Lemma html_escape_no_markup (s : str) :
  forallb (fun x => negb (markup_char x)) (Py.html_escape s) = true.
Proof.
  rewrite html_escape_flat_map.
  induction s as [|c s IH]; [reflexivity|].
  cbn [flat_map]. rewrite forallb_app, escape_char_no_markup. exact IH.
Qed.

(** ** The file operations *)

Lemma read_text_ok (w : world) (src text : str) :
  disk w !! src = Some (File (Some text)) ->
  read_text src w = (Return text, w).
Proof. intros H. unfold read_text. now rewrite H. Qed.

Lemma read_text_fails (w : world) (src : str) :
  readable (disk w) src = false ->
  read_text src w = (Raise (ReadError src), w).
Proof.
  unfold readable, read_text.
  destruct (disk w !! src) as [[[?|]|?]|]; intros; try discriminate; reflexivity.
Qed.

Lemma readable_text_of (d : gmap str node) (src : str) :
  readable d src = true -> d !! src = Some (File (Some (text_of d src))).
Proof.
  unfold readable, text_of.
  destruct (d !! src) as [[[?|]|?]|]; intros; try discriminate; reflexivity.
Qed.

(** Making the directory and writing one file in it. *)
Lemma emit_ok {A} (w : world) (dir name text : str) (x : A) :
  writable (disk w) dir name = true ->
  (mkdir dir >>> write_text dir name text >>> ret x) w
  = (Return x,
     World (put_file dir name text (disk w)) (console w)
           (written w ++ [(dir, name, text)])).
Proof.
  unfold writable, bind, mkdir, write_text, ret, put_file, children_of.
  destruct (disk w !! dir) as [[?|children]|] eqn:E; [discriminate| |].
  - rewrite E. destruct (children !! name) as [[?|]|]; [|discriminate|]; reflexivity.
  - intros _. cbn [disk console written].
    rewrite lookup_insert_eq, lookup_empty. cbn [disk console written].
    now rewrite insert_insert_eq.
Qed.

Lemma emit_fails {A} (w : world) (dir name text : str) (x : A) :
  writable (disk w) dir name = false ->
  (mkdir dir >>> write_text dir name text >>> ret x) w
  = (Raise (write_error (disk w) dir name), w).
Proof.
  unfold writable, write_error, is_source, bind, mkdir, write_text.
  destruct (disk w !! dir) as [[?|children]|] eqn:E; [| |discriminate].
  - reflexivity.
  - rewrite E. destruct (children !! name) as [[?|]|]; try discriminate.
    reflexivity.
Qed.

(** ** What a write leaves unchanged *)

Lemma same_view_refl (dir : str) (d : gmap str node) : same_view dir d d.
Proof. now repeat split. Qed.

Lemma same_view_sym (dir : str) (d d' : gmap str node) :
  same_view dir d d' -> same_view dir d' d.
Proof. intros (H1 & H2 & H3 & H4). now repeat split. Qed.

Lemma same_view_trans (dir : str) (d1 d2 d3 : gmap str node) :
  same_view dir d1 d2 -> same_view dir d2 d3 -> same_view dir d1 d3.
Proof.
  intros (H1 & H2 & H3 & H4) (K1 & K2 & K3 & K4).
  repeat split; intros; congruence.
Qed.

Lemma put_file_lookup_ne (d : gmap str node) (dir name text k : str) :
  k <> dir -> put_file dir name text d !! k = d !! k.
Proof. intros Hne. unfold put_file. now rewrite lookup_insert_ne. Qed.

Lemma put_file_lookup (d : gmap str node) (dir name text : str) :
  put_file dir name text d !! dir
  = Some (Dir (<[name := LFile (Some text)]> (children_of d dir))).
Proof. unfold put_file. now rewrite lookup_insert_eq. Qed.

(** A write that can be done changes nothing of what a run observes. *)
Lemma put_file_same_view (d : gmap str node) (dir name text : str) :
  writable d dir name = true ->
  same_view dir d (put_file dir name text d).
Proof.
  intros Hw.
  assert (Hdir : d !! dir = None \/ exists ch, d !! dir = Some (Dir ch)).
  { unfold writable in Hw. destruct (d !! dir) as [[?|ch]|]; eauto. discriminate. }
  repeat split.
  - intros k. unfold is_source. destruct (decide (k = dir)) as [->|Hne].
    + rewrite put_file_lookup. now destruct Hdir as [->|[ch ->]].
    + now rewrite put_file_lookup_ne.
  - intros k. unfold readable. destruct (decide (k = dir)) as [->|Hne].
    + rewrite put_file_lookup. now destruct Hdir as [->|[ch ->]].
    + now rewrite put_file_lookup_ne.
  - intros k. unfold text_of. destruct (decide (k = dir)) as [->|Hne].
    + rewrite put_file_lookup. now destruct Hdir as [->|[ch ->]].
    + now rewrite put_file_lookup_ne.
  - intros k. unfold writable at 1. rewrite put_file_lookup.
    destruct (decide (k = name)) as [->|Hne].
    + now rewrite lookup_insert_eq.
    + rewrite lookup_insert_ne by congruence.
      unfold writable, children_of.
      destruct Hdir as [->|[ch ->]]; [now rewrite lookup_empty|reflexivity].
Qed.

Lemma same_view_write_error (dir name : str) (d d' : gmap str node) :
  same_view dir d d' -> write_error d' dir name = write_error d dir name.
Proof. intros (H1 & _). unfold write_error. now rewrite H1. Qed.

Lemma is_source_spec (d : gmap str node) (name : str) :
  is_source d name = true <-> exists data, d !! name = Some (File data).
Proof.
  unfold is_source. destruct (d !! name) as [[data|?]|]; split;
    try discriminate; eauto; intros [? [=]].
Qed.

(** ** File discovery *)

Lemma str_leb_total (a b : str) : str_leb a b = true \/ str_leb b a = true.
Proof.
  revert b. induction a as [|x a IH]; intros [|y b]; cbn [str_leb]; auto.
  destruct (N.ltb_spec x y); [now left|].
  destruct (N.ltb_spec y x); [now right|].
  assert (x = y) as -> by lia. rewrite N.eqb_refl. cbn. apply IH.
Qed.

Lemma str_leb_trans (a b c : str) :
  str_leb a b = true -> str_leb b c = true -> str_leb a c = true.
Proof.
  revert b c. induction a as [|x a IH]; intros [|y b] [|z c]; cbn [str_leb];
    try discriminate; auto.
  intros H1 H2.
  apply orb_prop in H1 as [H1|H1]; apply orb_prop in H2 as [H2|H2].
  - apply N.ltb_lt in H1, H2. apply orb_true_intro; left. apply N.ltb_lt. lia.
  - apply andb_prop in H2 as [H2 _]. apply N.eqb_eq in H2. subst.
    now rewrite H1.
  - apply andb_prop in H1 as [H1 _]. apply N.eqb_eq in H1. subst.
    now rewrite H2.
  - apply andb_prop in H1 as [E1 H1]. apply andb_prop in H2 as [E2 H2].
    apply N.eqb_eq in E1, E2. subst. rewrite N.eqb_refl, (IH _ _ H1 H2).
    apply orb_true_r.
Qed.

Lemma str_leb_antisym (a b : str) :
  str_leb a b = true -> str_leb b a = true -> a = b.
Proof.
  revert b. induction a as [|x a IH]; intros [|y b]; cbn [str_leb];
    try discriminate; auto.
  intros H1 H2.
  apply orb_prop in H1 as [H1|H1]; apply orb_prop in H2 as [H2|H2].
  - apply N.ltb_lt in H1, H2. lia.
  - apply andb_prop in H2 as [H2 _]. apply N.eqb_eq in H2.
    apply N.ltb_lt in H1. lia.
  - apply andb_prop in H1 as [H1 _]. apply N.eqb_eq in H1.
    apply N.ltb_lt in H2. lia.
  - apply andb_prop in H1 as [E1 H1]. apply andb_prop in H2 as [_ H2].
    apply N.eqb_eq in E1. subst. f_equal. now apply IH.
Qed.

#[global] Instance str_le_total : Total str_le.
Proof. intros a b. apply str_leb_total. Qed.

#[global] Instance str_le_trans : Transitive str_le.
Proof. intros a b c. apply str_leb_trans. Qed.

#[global] Instance str_le_antisym : AntiSymm (=) str_le.
Proof. intros a b. apply str_leb_antisym. Qed.

(** [str_le] is the lexicographic order: a name comes before its
    extensions, and otherwise the first differing code points decide. *)
Lemma str_le_lexicographic (a b : str) :
  str_le a b
  <-> (exists r, b = a ++ r)
      \/ (exists p x y a' b', a = p ++ x :: a' /\ b = p ++ y :: b' /\ x < y).
Proof.
  unfold str_le. revert b. induction a as [|x a IH]; intros b.
  - cbn [str_leb]. split; [intros _; left; now exists b|reflexivity].
  - destruct b as [|y b]; cbn [str_leb].
    + split; [discriminate|]. intros [[r [=]]|(p & x' & y' & a' & b' & _ & Hb & _)].
      now destruct p.
    + split.
      * intros H. apply orb_prop in H as [H|H].
        { right. exists [], x, y, a, b. apply N.ltb_lt in H. now repeat split. }
        apply andb_prop in H as [E H]. apply N.eqb_eq in E. subst y.
        apply IH in H as [[r ->]|(p & x' & y' & a' & b' & -> & -> & Hlt)].
        { left. now exists r. }
        right. now exists (x :: p), x', y', a', b'.
      * intros [[r [= -> ->]]|(p & x' & y' & a' & b' & Ha & Hb & Hlt)].
        { rewrite N.eqb_refl. cbn [andb]. apply orb_true_intro. right.
          apply IH. left. now exists r. }
        destruct p as [|c p]; cbn [app] in Ha, Hb; injection Ha as -> ->;
          injection Hb as -> ->.
        { apply orb_true_intro. left. now apply N.ltb_lt. }
        rewrite N.eqb_refl. cbn [andb]. apply orb_true_intro. right.
        apply IH. right. now exists p, x', y', a', b'.
Qed.

(** ** Names of sources and of pages *)

Lemma startswith_spec (s p : str) :
  Py.startswith s p = true <-> exists t, s = p ++ t.
Proof.
  split.
  - revert s. induction p as [|c p IH]; intros s; cbn [Py.startswith].
    + intros _. now exists s.
    + destruct s as [|d s]; [discriminate|]. intros H.
      apply andb_prop in H as [E H]. apply N.eqb_eq in E. subst d.
      destruct (IH _ H) as [t ->]. now exists t.
  - intros [t ->]. apply startswith_app.
Qed.

Lemma glob_md_spec (name : str) :
  glob_md name = true <-> exists s, name = s ++ u ".md".
Proof.
  unfold glob_md, Py.endswith. rewrite startswith_spec. split.
  - intros [t Ht]. exists (rev t).
    rewrite <- (rev_involutive name), Ht, rev_app_distr. now rewrite rev_involutive.
  - intros [s ->]. exists (rev s). now rewrite rev_app_distr.
Qed.

Lemma rfind_md (s : str) : rfind 46 (s ++ [46; 109; 100]) = Some (length s).
Proof.
  induction s as [|c s IH]; [reflexivity|].
  cbn [app rfind length]. now rewrite IH.
Qed.

(** The stem of a name that ends with [.md]. *)
Lemma stem_md (s : str) :
  stem (s ++ u ".md") = match s with [] => u ".md" | _ :: _ => s end.
Proof.
  change (u ".md") with [46; 109; 100]. unfold stem. rewrite rfind_md.
  destruct s as [|c s]; [reflexivity|].
  remember (c :: s) as l eqn:Hl.
  assert (Hpos : (0 < length l)%nat) by (subst l; cbn [length]; lia).
  rewrite length_app. cbn [length].
  replace (0 <? length l)%nat with true by (symmetry; apply Nat.ltb_lt; lia).
  replace (length l <? length l + 3 - 1)%nat with true
    by (symmetry; apply Nat.ltb_lt; lia).
  cbn [andb]. rewrite take_app_length. now destruct l.
Qed.

(** Two sources have the same page name only when they are the same source
    or the two names [.md] and [.md.md]. *)
Lemma out_name_inj (a b : str) :
  glob_md a = true -> glob_md b = true ->
  out_name a = out_name b ->
  a = b \/ (a = u ".md" /\ b = u ".md.md") \/ (a = u ".md.md" /\ b = u ".md").
Proof.
  intros Ha Hb E. apply glob_md_spec in Ha as [s ->]. apply glob_md_spec in Hb as [t ->].
  unfold out_name in E. apply app_inv_tail in E. rewrite !stem_md in E.
  destruct s as [|c s], t as [|c' t].
  - now left.
  - right. left. now rewrite <- E.
  - right. right. now rewrite E.
  - left. now rewrite E.
Qed.

(** Only the source [index.md] has the page name of the index. *)
Lemma out_name_index (a : str) :
  glob_md a = true -> out_name a = u "index.html" -> a = u "index.md".
Proof.
  intros Ha E. apply glob_md_spec in Ha as [s ->].
  change (u "index.html") with (u "index" ++ u ".html") in E.
  unfold out_name in E. apply app_inv_tail in E. rewrite stem_md in E.
  destruct s as [|c s]; [discriminate|]. now rewrite E.
Qed.

Lemma find_markdown_files_elem (d : gmap str node) (name : str) :
  name ∈ find_markdown_files d
  <-> (exists data, d !! name = Some (File data)) /\ glob_md name = true.
Proof.
  unfold find_markdown_files. rewrite merge_sort_Permutation.
  rewrite list_elem_of_fmap. split.
  - intros [[n x] [-> H]]. apply list_elem_of_filter in H as [HP Hin].
    apply elem_of_map_to_list in Hin. cbn [fst snd] in *.
    apply andb_prop_elim in HP as [Hg Hf]. apply Is_true_eq_true in Hg.
    split; [|exact Hg].
    destruct x as [data|]; [now exists data|contradiction].
  - intros [[data Hd] Hg]. exists (name, File data). split; [reflexivity|].
    apply list_elem_of_filter. split.
    + cbn [fst snd]. rewrite Hg. exact I.
    + now apply elem_of_map_to_list.
Qed.

Lemma find_markdown_files_NoDup (d : gmap str node) :
  NoDup (find_markdown_files d).
Proof.
  unfold find_markdown_files. rewrite merge_sort_Permutation.
  apply (sublist_NoDup _ ((map_to_list d).*1)).
  - apply NoDup_fst_map_to_list.
  - apply fmap_sublist, sublist_filter.
Qed.

(** C8.  [find_markdown_files] returns the names of the entries of the
    directory itself that are regular files and end with [.md], each once,
    in the order of the names. *)
Theorem find_markdown_files_spec (d : gmap str node) :
  (forall name : str,
     name ∈ find_markdown_files d
     <-> (exists data, d !! name = Some (File data))
         /\ Py.endswith name (u ".md") = true)
  /\ NoDup (find_markdown_files d)
  /\ StronglySorted str_le (find_markdown_files d).
Proof.
  split; [|split].
  - apply find_markdown_files_elem.
  - apply find_markdown_files_NoDup.
  - apply StronglySorted_merge_sort; apply _.
Qed.

Example find_markdown_files_ex :
  find_markdown_files sample_dir = [u "a.md"; u "b.md"]
  /\ find_markdown_files bare_dir = [].
Proof. split; reflexivity. Qed.

(** ** The index body, line by line *)

Lemma join_cons (sep x : str) (l : list str) :
  Py.join sep (x :: l) = x ++ flat_map (fun p => sep ++ p) l.
Proof.
  revert x. induction l as [|y l IH]; intros x.
  - cbn [Py.join flat_map]. now rewrite app_nil_r.
  - change (Py.join sep (x :: y :: l)) with (x ++ sep ++ Py.join sep (y :: l)).
    rewrite IH. cbn [flat_map]. now rewrite <- app_assoc.
Qed.

Lemma flat_map_shift (sep : str) (l : list str) :
  flat_map (fun p => sep ++ p) l ++ sep = sep ++ flat_map (fun p => p ++ sep) l.
Proof.
  induction l as [|x l IH]; cbn [flat_map]; [now rewrite app_nil_r|].
  now rewrite <- !app_assoc, IH.
Qed.

Lemma toc_item_text (item : str * str * str) : toc_item item = toc_entry_text item.
Proof.
  destruct item as [[src_name title] href]. unfold toc_item, toc_entry_text.
  rewrite !html_escape_flat_map. fold (escaped_text href) (escaped_text title)
    (escaped_text src_name).
  rewrite <- !app_assoc. reflexivity.
Qed.

Lemma toc_lines_shift (items : list (str * str * str)) (rest : str) :
  flat_map (fun p => nl ++ p) (map toc_item items) ++ nl ++ rest
  = nl ++ flat_map (fun item => toc_entry_text item ++ nl) items ++ rest.
Proof.
  induction items as [|item items IH]; [reflexivity|].
  cbn [map flat_map]. rewrite toc_item_text, <- !app_assoc. do 2 f_equal.
  exact IH.
Qed.

(** What [join] makes of the parts of the index is the body written out. *)
Lemma index_parts_text (items : list (str * str * str)) :
  Py.join nl (index_parts items) = toc_body items.
Proof.
  unfold index_parts, toc_body. cbn [app]. rewrite join_cons.
  cbn [flat_map]. rewrite flat_map_app. cbn [flat_map]. rewrite app_nil_r.
  rewrite <- !app_assoc. now rewrite toc_lines_shift.
Qed.

Lemma escaped_text_unescape (s : str) : html_unescape (escaped_text s) = s.
Proof. unfold escaped_text. rewrite <- html_escape_flat_map. apply html_unescape_escape. Qed.

Lemma escaped_text_no_markup (s : str) :
  forallb (fun c => negb (markup_char c)) (escaped_text s) = true.
Proof. unfold escaped_text. rewrite <- html_escape_flat_map. apply html_escape_no_markup. Qed.

(** ** The converter and the index builder *)

Section ConverterFacts.

Variable markdown : option (str -> str).

Lemma bind_ret {A B} (a : A) (k : A -> M B) (w : world) :
  bind (ret a) k w = k a w.
Proof. reflexivity. Qed.

Lemma convert_ok (src dst : str) (w : world) :
  readable (disk w) src = true ->
  writable (disk w) dst (out_name src) = true ->
  convert_one_file markdown src dst w
  = (Return (rel_path dst (out_name src)),
     World (put_file dst (out_name src) (converted_page markdown (disk w) src) (disk w))
           (console w)
           (written w ++ [(dst, out_name src, converted_page markdown (disk w) src)])).
Proof.
  intros Hr Hw. unfold convert_one_file.
  unfold bind at 1. rewrite (read_text_ok _ _ _ (readable_text_of _ _ Hr)).
  rewrite format_page_eq, bind_ret.
  now rewrite emit_ok.
Qed.

Lemma convert_unwritable (src dst : str) (w : world) :
  readable (disk w) src = true ->
  writable (disk w) dst (out_name src) = false ->
  convert_one_file markdown src dst w
  = (Raise (write_error (disk w) dst (out_name src)), w).
Proof.
  intros Hr Hw. unfold convert_one_file.
  unfold bind at 1. rewrite (read_text_ok _ _ _ (readable_text_of _ _ Hr)).
  rewrite format_page_eq, bind_ret.
  now apply emit_fails.
Qed.

Lemma convert_unreadable (src dst : str) (w : world) :
  readable (disk w) src = false ->
  convert_one_file markdown src dst w = (Raise (ReadError src), w).
Proof.
  intros Hr. unfold convert_one_file, bind.
  now rewrite (read_text_fails _ _ Hr).
Qed.

Lemma index_items_ok (md_files : list str) (w : world) :
  forallb (readable (disk w)) md_files = true ->
  index_items md_files w = (Return (map (index_entry (disk w)) md_files), w).
Proof.
  unfold index_items.
  induction md_files as [|src rest IH]; [reflexivity|].
  cbn [forallb]. intros H. apply andb_prop in H as [Hr Hrest].
  cbn [for_collect map]. unfold bind at 1. unfold bind at 1.
  rewrite (read_text_ok _ _ _ (readable_text_of _ _ Hr)).
  unfold ret at 1. unfold bind at 1. rewrite (IH Hrest). reflexivity.
Qed.

Lemma build_index_ok (md_files : list str) (dst : str) (w : world) :
  forallb (readable (disk w)) md_files = true ->
  writable (disk w) dst (u "index.html") = true ->
  build_index_page md_files dst w
  = (Return (rel_path dst (u "index.html")),
     World (put_file dst (u "index.html") (index_page (disk w) md_files) (disk w))
           (console w)
           (written w ++ [(dst, u "index.html", index_page (disk w) md_files)])).
Proof.
  intros Hr Hw. unfold build_index_page.
  unfold bind at 1. rewrite (index_items_ok _ _ Hr).
  rewrite format_page_eq, bind_ret.
  now rewrite emit_ok.
Qed.

Lemma file_at_put_file (d : gmap str node) (dir name text : str) :
  file_at (put_file dir name text d) dir name = Some text.
Proof.
  unfold file_at, put_file, children_of.
  now rewrite lookup_insert_eq, lookup_insert_eq.
Qed.

(** C7.  A converted page and the index page are the template with the
    escaped title (twice) and the escaped source attribution in its fields,
    and with the body as it is: the output of the engine, or the fallback
    fragment, for a converted page, and the list of the contents for the
    index page.  Escaped means that each of the five characters of markup is
    replaced by its character reference, so that the text holds no character
    that opens markup or closes an attribute, and reads back as the
    original. *)
Theorem pages_escape_title_and_source (w : world) (src dst : str) (md_files : list str) :
  (readable (disk w) src = true ->
   writable (disk w) dst (out_name src) = true ->
   exists w',
     convert_one_file markdown src dst w = (Return (rel_path dst (out_name src)), w')
     /\ file_at (disk w') dst (out_name src)
        = Some (page_lit 0 ++ escaped_text (guess_title (text_of (disk w) src) (stem src))
                ++ page_lit 1 ++ escaped_text (guess_title (text_of (disk w) src) (stem src))
                ++ page_lit 2 ++ escaped_text src
                ++ page_lit 3
                ++ match markdown with
                   | Some engine => engine (text_of (disk w) src)
                   | None =>
                       u "<pre style='white-space: pre-wrap'>"
                       ++ escaped_text (text_of (disk w) src) ++ u "</pre>"
                   end
                ++ page_lit 4))
  /\ (forallb (readable (disk w)) md_files = true ->
      writable (disk w) dst (u "index.html") = true ->
      exists w',
        build_index_page md_files dst w = (Return (rel_path dst (u "index.html")), w')
        /\ file_at (disk w') dst (u "index.html")
           = Some (page_lit 0 ++ u "网球自学指南"
                   ++ page_lit 1 ++ u "网球自学指南"
                   ++ page_lit 2 ++ u "目录 index"
                   ++ page_lit 3
                   ++ toc_body
                        (map (fun src =>
                                (src, guess_title (text_of (disk w) src) (stem src),
                                 stem src ++ u ".html")) md_files)
                   ++ page_lit 4))
  /\ (forall s : str,
        html_unescape (escaped_text s) = s
        /\ forallb (fun c => negb (markup_char c)) (escaped_text s) = true).
Proof.
  split; [|split].
  - intros Hr Hw. eexists. split; [now apply convert_ok|].
    cbn [disk]. rewrite file_at_put_file.
    unfold converted_page, filled_template, title_of, render_markdown.
    rewrite !html_escape_flat_map. now destruct markdown.
  - intros Hr Hw. eexists. split; [now apply build_index_ok|].
    cbn [disk]. rewrite file_at_put_file.
    unfold index_page, index_body, filled_template. rewrite index_parts_text.
    reflexivity.
  - intros s. split; [apply escaped_text_unescape|apply escaped_text_no_markup].
Qed.

(** C10.  When the source cannot be read, [convert_one_file] raises the read
    error and leaves the world as it found it: the output directory is not
    made, no file is written, nothing is printed. *)
Theorem convert_unreadable_changes_nothing (src dst : str) (w : world) :
  readable (disk w) src = false ->
  convert_one_file markdown src dst w = (Raise (ReadError src), w).
Proof.
  apply convert_unreadable.
Qed.

(** The branch of [main] for an empty list of sources. *)
Lemma main_no_sources (argv : list str) (w : world) :
  find_markdown_files (disk w) = [] ->
  main markdown argv w
  = (Return O,
     World (disk w)
           (console w ++ advisory markdown ++ [u "未在当前目录找到任何 .md 文件。"])
           (written w)).
Proof.
  intros Hnone. unfold main, advisory.
  destruct markdown; unfold bind, print, ret; cbn [disk console written];
    rewrite Hnone; cbn [disk console written].
  - reflexivity.
  - now rewrite <- !app_assoc.
Qed.

(** C6.  Without any Markdown file [main] prints that none was found and
    returns 0; the directory is as before (no file and no directory is
    made) and nothing was written. *)
Theorem main_without_sources (argv : list str) (w : world) :
  find_markdown_files (disk w) = [] ->
  main markdown argv w
  = (Return O,
     World (disk w)
           (console w ++ advisory markdown ++ [u "未在当前目录找到任何 .md 文件。"])
           (written w))
  /\ disk (snd (main markdown argv w)) = disk w
  /\ written (snd (main markdown argv w)) = written w.
Proof.
  intros Hnone. rewrite (main_no_sources _ _ Hnone). now repeat split.
Qed.

End ConverterFacts.

(** ** Writing the same log twice *)



Lemma children_of_insert (d : gmap str node) (dir : str) (ch : gmap str leaf) :
  children_of (<[dir := Dir ch]> d) dir = ch.
Proof. unfold children_of. now rewrite lookup_insert_eq. Qed.



(** ** The loop of the driver *)

Section DriverFacts.

Variable markdown : option (str -> str).

Lemma converted_page_same_view (dir : str) (d d' : gmap str node) (src : str) :
  same_view dir d d' ->
  converted_page markdown d' src = converted_page markdown d src.
Proof.
  intros (_ & _ & H3 & _). unfold converted_page, title_of. now rewrite H3.
Qed.

Lemma index_page_same_view (dir : str) (d d' : gmap str node) (md_files : list str) :
  same_view dir d d' -> index_page d' md_files = index_page d md_files.
Proof.
  intros (_ & _ & H3 & _). unfold index_page, index_body. do 3 f_equal.
  apply map_ext. intros src. unfold index_entry, title_of. now rewrite H3.
Qed.

Lemma convertible_same_view (dir : str) (d d' : gmap str node) (src : str) :
  same_view dir d d' -> convertible d' dir src = convertible d dir src.
Proof.
  intros (_ & H2 & _ & H4). unfold convertible. now rewrite H2, H4.
Qed.

(** One conversion, from any world in which the run observes what it
    observes in [d0]. *)
Lemma convert_from_view (d0 : gmap str node) (src dst : str) (w : world) :
  same_view dst d0 (disk w) ->
  convert_one_file markdown src dst w
  = if convertible d0 dst src
    then (Return (rel_path dst (out_name src)),
          World (put_file dst (out_name src) (converted_page markdown d0 src) (disk w))
                (console w)
                (written w ++ [conversion markdown d0 dst src]))
    else (Raise (conversion_error d0 dst src), w).
Proof.
  intros Hv. pose proof Hv as (H1 & H2 & H3 & H4).
  unfold convertible, conversion_error, conversion.
  destruct (readable d0 src) eqn:Hr; cbn [andb].
  - destruct (writable d0 dst (out_name src)) eqn:Hw.
    + rewrite convert_ok by congruence.
      now rewrite (converted_page_same_view _ _ _ _ Hv).
    + rewrite convert_unwritable by congruence.
      now rewrite (same_view_write_error _ _ _ _ Hv).
  - apply convert_unreadable. congruence.
Qed.

Lemma for_app {A} (xs ys : list A) (body : A -> M unit) (w : world) :
  for_ (xs ++ ys) body w = (for_ xs body >>> for_ ys body) w.
Proof.
  revert w. induction xs as [|x xs IH]; intros w; cbn [for_ app].
  - reflexivity.
  - unfold bind in *. destruct (body x w) as [[[]|e] w']; [|reflexivity].
    now rewrite IH.
Qed.

(** The loop converts the sources up to the first one that cannot be
    converted, prints one line for each, and ends as [loop_outcome] says. *)
Lemma loop_from_view (d0 : gmap str node) (md_files : list str) (w : world) :
  same_view OUTPUT_DIR d0 (disk w) ->
  for_ md_files (fun path =>
    let! out := convert_one_file markdown path OUTPUT_DIR in
    print (u "- " ++ path ++ u "  ->  " ++ out)) w
  = (loop_outcome d0 OUTPUT_DIR md_files,
     World (replay (map (conversion markdown d0 OUTPUT_DIR)
                        (converted d0 OUTPUT_DIR md_files)) (disk w))
           (console w ++ map progress_line (converted d0 OUTPUT_DIR md_files))
           (written w ++ map (conversion markdown d0 OUTPUT_DIR)
                             (converted d0 OUTPUT_DIR md_files)))
  /\ same_view OUTPUT_DIR d0
       (replay (map (conversion markdown d0 OUTPUT_DIR)
                    (converted d0 OUTPUT_DIR md_files)) (disk w)).
Proof.
  revert w. induction md_files as [|src rest IH]; intros w Hv.
  - cbn [for_ loop_outcome converted map replay foldl]. rewrite !app_nil_r.
    split; [now destruct w|exact Hv].
  - cbn [for_ loop_outcome converted]. unfold bind at 1. unfold bind at 1.
    rewrite (convert_from_view d0) by exact Hv.
    destruct (convertible d0 OUTPUT_DIR src) eqn:Hc.
    + unfold print at 1. cbn [disk console written].
      assert (Hv' : same_view OUTPUT_DIR d0
                (put_file OUTPUT_DIR (out_name src)
                   (converted_page markdown d0 src) (disk w))).
      { eapply same_view_trans; [exact Hv|]. apply put_file_same_view.
        destruct Hv as (_ & _ & _ & H4). rewrite H4.
        unfold convertible in Hc. now apply andb_prop in Hc as [_ Hc]. }
      set (w1 := World _ _ _).
      destruct (IH w1 Hv') as [E1 E2]. rewrite E1. subst w1.
      cbn [disk console written map replay foldl fst snd conversion].
      rewrite <- !app_assoc. split; [reflexivity|exact E2].
    + cbn [map replay foldl]. rewrite !app_nil_r.
      split; [now destruct w|exact Hv].
Qed.

Lemma converted_stop (d : gmap str node) (dir : str) (pre post : list str) (p : str) :
  convertible d dir p = false ->
  converted d dir (pre ++ p :: post) = converted d dir pre
  /\ exists e, loop_outcome d dir (pre ++ p :: post) = Raise e
       /\ (forallb (convertible d dir) pre = true ->
           e = conversion_error d dir p).
Proof.
  intros Hp. induction pre as [|src pre IH]; cbn [app converted loop_outcome forallb].
  - rewrite Hp. split; [reflexivity|]. eexists. split; [reflexivity|auto].
  - destruct (convertible d dir src) eqn:Hc.
    + destruct IH as [E (e & He & Hall)]. split; [now rewrite E|].
      exists e. split; [exact He|exact Hall].
    + split; [reflexivity|]. eexists. split; [reflexivity|]. discriminate.
Qed.

Lemma converted_prefix (d : gmap str node) (dir : str) (md_files : list str) :
  exists k, (k <= length md_files)%nat
    /\ converted d dir md_files = take k md_files
    /\ (forallb (convertible d dir) md_files = true -> k = length md_files).
Proof.
  induction md_files as [|src rest (k & Hk & E & Hall)]; cbn [converted forallb].
  - exists O. now repeat split.
  - destruct (convertible d dir src).
    + exists (S k). cbn [length take]. repeat split; [lia|now rewrite E|].
      intros H. now rewrite Hall.
    + exists O. repeat split; [cbn [length]; lia|discriminate].
Qed.

(** C5.  When discovery finds a source [p] that cannot be read, [main] ends
    with an exception.  What it has done by then is the conversion of some
    of the sources that come before [p], each with its line of progress: no
    later source is converted, the index page is not built, and nothing more
    is printed.  When every source before [p] can be converted, all of them
    are, and the exception is the read error of [p]. *)
Theorem unreadable_source_aborts_run (argv : list str) (w : world)
    (pre post : list str) (p : str) :
  find_markdown_files (disk w) = pre ++ p :: post ->
  readable (disk w) p = false ->
  exists (e : exn) (k : nat),
    (k <= length pre)%nat
    /\ main markdown argv w
       = (Raise e,
          World (replay (map (conversion markdown (disk w) OUTPUT_DIR) (take k pre)) (disk w))
                (console w ++ advisory markdown
                 ++ [found_line (pre ++ p :: post)]
                 ++ map progress_line (take k pre))
                (written w ++ map (conversion markdown (disk w) OUTPUT_DIR) (take k pre)))
    /\ (forallb (convertible (disk w) OUTPUT_DIR) pre = true ->
        e = ReadError p /\ k = length pre).
Proof.
  intros Hfind Hp.
  assert (Hc : convertible (disk w) OUTPUT_DIR p = false).
  { unfold convertible. now rewrite Hp. }
  destruct (converted_stop (disk w) OUTPUT_DIR pre post p Hc) as [Econv (e & He & Hall)].
  destruct (converted_prefix (disk w) OUTPUT_DIR pre) as (k & Hk & Etake & Hlen).
  exists e, k. split; [exact Hk|]. split.
  - unfold main.
    set (w1 := World (disk w) (console w ++ advisory markdown) (written w)).
    assert (Hpro : forall (k : unit -> M nat),
      bind (match markdown with
            | None =>
                print (u "[提示] 未检测到 'markdown' 库，将使用简单文本模式。") >>>
                print (u "       可选：运行 'pip install markdown' 后，重新执行本脚本，效果更好。")
            | Some _ => ret tt
            end) k w = k tt w1).
    { intros k0. subst w1. unfold advisory. destruct markdown.
      - unfold bind, ret. rewrite app_nil_r. now destruct w.
      - unfold bind, print. cbn [disk console written].
        now rewrite <- app_assoc. }
    rewrite Hpro. subst w1. cbn [disk]. rewrite Hfind.
    destruct (pre ++ p :: post) as [|x xs] eqn:Hl.
    { now destruct pre. }
    rewrite <- Hl in He, Econv |- *.
    unfold bind at 1. unfold print at 1. cbn [disk console written].
    unfold bind at 1.
    set (w2 := World _ _ _).
    destruct (loop_from_view (disk w) (pre ++ p :: post) w2 (same_view_refl _ _)) as [E _].
    rewrite E, He, Econv, Etake. subst w2. cbn [disk console written].
    unfold found_line. now rewrite <- !app_assoc.
  - intros Hall'. split; [|now apply Hlen].
    rewrite (Hall Hall'). unfold conversion_error. now rewrite Hp.
Qed.

Lemma find_markdown_files_same_view (dir : str) (d d' : gmap str node) :
  same_view dir d d' -> find_markdown_files d' = find_markdown_files d.
Proof.
  intros (H1 & _).
  apply (StronglySorted_unique str_le).
  - apply StronglySorted_merge_sort; apply _.
  - apply StronglySorted_merge_sort; apply _.
  - apply NoDup_Permutation; try apply find_markdown_files_NoDup.
    intros name. rewrite !find_markdown_files_elem, <- !is_source_spec.
    now rewrite H1.
Qed.

Lemma loop_outcome_return (d : gmap str node) (dir : str) (md_files : list str) (x : unit) :
  loop_outcome d dir md_files = Return x ->
  converted d dir md_files = md_files
  /\ forallb (readable d) md_files = true.
Proof.
  induction md_files as [|src rest IH]; cbn [loop_outcome converted forallb].
  - now split.
  - unfold convertible at 1 2. destruct (readable d src); cbn [andb]; [|discriminate].
    destruct (writable d dir (out_name src)); [|discriminate].
    intros H. destruct (IH H) as [E1 E2]. now rewrite E1.
Qed.

Lemma build_index_unwritable (md_files : list str) (dst : str) (w : world) :
  forallb (readable (disk w)) md_files = true ->
  writable (disk w) dst (u "index.html") = false ->
  build_index_page md_files dst w
  = (Raise (write_error (disk w) dst (u "index.html")), w).
Proof.
  intros Hr Hw. unfold build_index_page.
  unfold bind at 1. rewrite (index_items_ok _ _ Hr).
  rewrite format_page_eq, bind_ret.
  now apply emit_fails.
Qed.

(** The index page, from any world in which the run observes what it
    observes in [d0]. *)
Lemma build_index_from_view (d0 : gmap str node) (md_files : list str) (dst : str) (w : world) :
  same_view dst d0 (disk w) ->
  forallb (readable d0) md_files = true ->
  build_index_page md_files dst w
  = if writable d0 dst (u "index.html")
    then (Return (rel_path dst (u "index.html")),
          World (put_file dst (u "index.html") (index_page d0 md_files) (disk w))
                (console w)
                (written w ++ [(dst, u "index.html", index_page d0 md_files)]))
    else (Raise (write_error d0 dst (u "index.html")), w).
Proof.
  intros Hv Hr. pose proof Hv as (H1 & H2 & H3 & H4).
  assert (Hr' : forallb (readable (disk w)) md_files = true).
  { rewrite <- Hr. clear Hr. induction md_files as [|src rest IH]; [reflexivity|].
    cbn [forallb]. now rewrite H2, IH. }
  destruct (writable d0 dst (u "index.html")) eqn:Hw.
  - rewrite build_index_ok by congruence.
    now rewrite (index_page_same_view _ _ _ _ Hv).
  - rewrite build_index_unwritable by congruence.
    now rewrite (same_view_write_error _ _ _ _ Hv).
Qed.

Lemma main_log_dir (d : gmap str node) :
  Forall (fun e => e.1.1 = OUTPUT_DIR) (main_log markdown d).
Proof.
  unfold main_log. apply Forall_app. split.
  - apply Forall_forall. intros e He.
    apply list_elem_of_fmap in He as (src & -> & _). reflexivity.
  - destruct (find_markdown_files d); [constructor|].
    destruct (main_outcome d); now repeat constructor.
Qed.

(** A run from any world in which it observes what it observes in [d0]:
    its outcome, the lines it prints and the writes it does are those of
    [d0]. *)
Lemma main_from_view (argv : list str) (d0 : gmap str node) (w : world) :
  same_view OUTPUT_DIR d0 (disk w) ->
  main markdown argv w
  = (main_outcome d0,
     World (replay (main_log markdown d0) (disk w))
           (console w ++ main_lines markdown d0)
           (written w ++ main_log markdown d0))
  /\ same_view OUTPUT_DIR d0 (replay (main_log markdown d0) (disk w)).
Proof.
  intros Hv. unfold main_log, main_lines, main_outcome.
  destruct (find_markdown_files d0) as [|x xs] eqn:Hfiles.
  { cbn [converted map app replay foldl]. split; [|exact Hv].
    rewrite main_no_sources; [now rewrite app_nil_r|].
    now rewrite (find_markdown_files_same_view _ _ _ Hv). }
  set (convs := map (conversion markdown d0 OUTPUT_DIR) (converted d0 OUTPUT_DIR (x :: xs))).
  assert (Hstart :
    main markdown argv w
    = (for_ (x :: xs) (fun path =>
         let! out := convert_one_file markdown path OUTPUT_DIR in
         print (u "- " ++ path ++ u "  ->  " ++ out)) >>>
       let! index_path := build_index_page (x :: xs) OUTPUT_DIR in
       print (u "- 目录首页  ->  " ++ index_path) >>>
       print (u "完成！可以在 'docs' 文件夹中用浏览器或 GitHub Pages 打开这些 HTML 文件（入口为 index.html）。") >>>
       ret O)
      (World (disk w) (console w ++ advisory markdown ++ [found_line (x :: xs)]) (written w))).
  { unfold main, advisory, found_line. clear convs.
    destruct markdown; unfold bind at 1; [unfold ret at 1|unfold bind at 1; unfold print at 1 2];
      cbn [disk console written];
      rewrite (find_markdown_files_same_view _ _ _ Hv), Hfiles;
      unfold bind at 1; unfold print at 1; cbn [disk console written];
      rewrite <- ?app_assoc; reflexivity. }
  rewrite Hstart. clear Hstart.
  unfold bind at 1. set (w1 := World _ _ _).
  destruct (loop_from_view d0 (x :: xs) w1 Hv) as [E Hv1]. rewrite E. clear E.
  fold convs in Hv1 |- *. subst w1. cbn [disk console written] in *.
  destruct (loop_outcome d0 OUTPUT_DIR (x :: xs)) as [[]|e] eqn:Hloop.
  - destruct (loop_outcome_return _ _ _ _ Hloop) as [Hall Hread].
    unfold bind at 1. rewrite (build_index_from_view d0) by assumption.
    destruct (writable d0 OUTPUT_DIR (u "index.html")) eqn:Hw.
    + unfold bind, print, ret. cbn [disk console written].
      unfold replay. rewrite foldl_app. cbn [foldl fst snd].
      rewrite <- !app_assoc. split; [reflexivity|].
      eapply same_view_trans; [exact Hv1|]. apply put_file_same_view.
      destruct Hv1 as (_ & _ & _ & H4). now rewrite H4.
    + rewrite !app_nil_r, <- !app_assoc. split; [reflexivity|exact Hv1].
  - rewrite !app_nil_r, <- !app_assoc. split; [reflexivity|exact Hv1].
Qed.

(** ** The pages a successful run leaves *)

Lemma file_at_put_file_ne (d : gmap str node) (dir name name' text : str) :
  name' <> name ->
  file_at (put_file dir name text d) dir name' = file_at d dir name'.
Proof.
  intros Hne. unfold file_at, put_file.
  rewrite children_of_insert. now rewrite lookup_insert_ne by congruence.
Qed.

Lemma replay_snoc (log : list (str * str * str)) (e : str * str * str) (d : gmap str node) :
  replay (log ++ [e]) d = put_file e.1.1 e.1.2 e.2 (replay log d).
Proof. unfold replay. now rewrite foldl_app. Qed.

Lemma loop_outcome_all (d : gmap str node) (dir : str) (md_files : list str) :
  forallb (convertible d dir) md_files = true ->
  loop_outcome d dir md_files = Return tt /\ converted d dir md_files = md_files.
Proof.
  induction md_files as [|src rest IH]; cbn [forallb loop_outcome converted].
  - now split.
  - intros H. apply andb_prop in H as [Hc Hrest]. rewrite Hc.
    destruct (IH Hrest) as [E1 E2]. now rewrite E2.
Qed.

(** After the conversions of sources with different page names, every page
    holds the conversion of its source. *)
Lemma file_at_conversions (d0 d : gmap str node) (md_files : list str) (src : str) :
  NoDup (map out_name md_files) ->
  src ∈ md_files ->
  file_at (replay (map (conversion markdown d0 OUTPUT_DIR) md_files) d)
          OUTPUT_DIR (out_name src)
  = Some (converted_page markdown d0 src).
Proof.
  induction md_files as [|x l IH] using rev_ind; [now intros _ ?%elem_of_nil|].
  rewrite !map_app. cbn [map]. intros Hnd Hin.
  rewrite replay_snoc. cbn [conversion fst snd].
  apply NoDup_app in Hnd as (Hl & Hx & _).
  apply elem_of_app in Hin as [Hin|Hin%list_elem_of_singleton].
  - rewrite file_at_put_file_ne; [now apply IH|].
    intros E. apply (Hx (out_name src)); [|rewrite E; now left].
    apply list_elem_of_fmap. now exists src.
  - subst x. apply file_at_put_file.
Qed.

(** X16.  What the output-set invariant needs from the directory: when every
    discovered source converts, the index can be written, no source is named
    [index.md] and the names [.md] and [.md.md] do not both occur, the run
    succeeds, every source has its own page, all page names differ from one
    another and from [index.html], and the index page is there. *)
Lemma run_keeps_every_page (d : gmap str node) :
  find_markdown_files d <> [] ->
  forallb (convertible d OUTPUT_DIR) (find_markdown_files d) = true ->
  writable d OUTPUT_DIR (u "index.html") = true ->
  u "index.md" ∉ find_markdown_files d ->
  ~ (u ".md" ∈ find_markdown_files d /\ u ".md.md" ∈ find_markdown_files d) ->
  fst (run markdown d) = Return O
  /\ NoDup (u "index.html" :: map out_name (find_markdown_files d))
  /\ (forall src, src ∈ find_markdown_files d ->
        file_at (disk (snd (run markdown d))) OUTPUT_DIR (out_name src)
        = Some (converted_page markdown d src))
  /\ file_at (disk (snd (run markdown d))) OUTPUT_DIR (u "index.html")
     = Some (index_page d (find_markdown_files d)).
Proof.
  intros Hne Hall Hw Hindex Hdot.
  assert (Hglob : forall src, src ∈ find_markdown_files d -> glob_md src = true).
  { intros src Hin. now apply find_markdown_files_elem in Hin as [_ ?]. }
  assert (Hnd : NoDup (map out_name (find_markdown_files d))).
  { apply NoDup_fmap_2_strong; [|apply find_markdown_files_NoDup].
    intros a b Ha Hb E.
    destruct (out_name_inj a b (Hglob _ Ha) (Hglob _ Hb) E) as [?|[[-> ->]|[-> ->]]];
      [assumption| |]; exfalso; apply Hdot; now split. }
  assert (Hni : u "index.html" ∉ map out_name (find_markdown_files d)).
  { intros Hin. apply list_elem_of_fmap in Hin as (src & E & Hin).
    apply Hindex. now rewrite <- (out_name_index src (Hglob _ Hin)). }
  destruct (loop_outcome_all _ _ _ Hall) as [Hloop Hconv].
  unfold run.
  destruct (main_from_view [] d (World d [] []) (same_view_refl _ _)) as [E _].
  rewrite E. cbn [fst snd disk]. clear E.
  unfold main_outcome, main_log, main_outcome. rewrite Hloop, Hw, Hconv.
  destruct (find_markdown_files d) as [|x xs] eqn:Hfiles; [contradiction|].
  rewrite <- Hfiles in *.
  split; [reflexivity|]. split; [now constructor|]. split.
  - intros src Hin. rewrite replay_snoc. cbn [fst snd].
    rewrite file_at_put_file_ne.
    + now apply file_at_conversions.
    + intros E. apply Hni. rewrite <- E. apply list_elem_of_fmap. now exists src.
  - rewrite replay_snoc. apply file_at_put_file.
Qed.


End DriverFacts.

(** ** Runs on the sample directories *)

(** C4 fails on a source named like the index page.  The run succeeds and
    writes three times, twice to [docs/index.html]: first the page of
    [index.md], then the index page over it.  Two files are left for two
    sources and the index, and the page of [index.md] is not among them. *)
Theorem index_source_loses_its_page :
  find_markdown_files index_dir = [u "a.md"; u "index.md"]
  /\ fst (run None index_dir) = Return O
  /\ map (fun e => rel_path e.1.1 e.1.2) (written (snd (run None index_dir)))
     = [u "docs/a.html"; u "docs/index.html"; u "docs/index.html"]
  /\ dom (children_of (disk (snd (run None index_dir))) OUTPUT_DIR)
     = {[u "a.html"; u "index.html"]}
  /\ file_at (disk (snd (run None index_dir))) OUTPUT_DIR (u "index.html")
     = Some (index_page index_dir [u "a.md"; u "index.md"])
  /\ file_at (disk (snd (run None index_dir))) OUTPUT_DIR (u "index.html")
     <> Some (converted_page None index_dir (u "index.md")).
Proof.
  split; [reflexivity|]. split; [reflexivity|]. split; [reflexivity|].
  split; [vm_compute; reflexivity|]. split; [vm_compute; reflexivity|].
  vm_compute. discriminate.
Qed.

(** C2 fails on a source with a number sign in its name.  The run succeeds,
    writes the page of [a#b.md] to [docs/a#b.html], and writes an index whose
    one entry has the link [a#b.html], escaped for HTML but not quoted for a
    URL.  As a reference that link has the path [a] and the fragment
    [b.html]: it names a file that the output directory does not hold, not
    the page of the source. *)
Theorem index_link_breaks_at_number_sign :
  find_markdown_files hash_dir = [u "a#b.md"]
  /\ fst (run None hash_dir) = Return O
  /\ file_at (disk (snd (run None hash_dir))) OUTPUT_DIR (u "a#b.html")
     = Some (converted_page None hash_dir (u "a#b.md"))
  /\ file_at (disk (snd (run None hash_dir))) OUTPUT_DIR (u "index.html")
     = Some (page_lit 0 ++ u "网球自学指南"
             ++ page_lit 1 ++ u "网球自学指南"
             ++ page_lit 2 ++ u "目录 index"
             ++ page_lit 3
             ++ (u "<section>" ++ nl ++ u "<h2>目录</h2>" ++ nl
                 ++ u "<ul class=" ++ dq ++ u "toc" ++ dq ++ u ">" ++ nl
                 ++ u "<li><a href=" ++ dq ++ u "a#b.html" ++ dq
                 ++ u "><div class='title'>Notes</div>"
                 ++ u "<div class='file-name'>a#b.md</div></a></li>" ++ nl
                 ++ u "</ul>" ++ nl ++ u "</section>")
             ++ page_lit 4)
  /\ html_unescape (u "a#b.html") = u "a#b.html"
  /\ reference_path (u "a#b.html") = u "a"
  /\ children_of (disk (snd (run None hash_dir))) OUTPUT_DIR !! u "a" = None.
Proof.
  split; [reflexivity|]. split; [reflexivity|].
  split; [vm_compute; reflexivity|]. split; [vm_compute; reflexivity|].
  split; [reflexivity|]. split; [reflexivity|]. vm_compute. reflexivity.
Qed.

(** Two sources of different names can also share one page: the stem of
    [.md] is [.md] itself, which is the stem of [.md.md] as well. *)
Example stem_collision :
  out_name (u ".md") = u ".md.html" /\ out_name (u ".md.md") = u ".md.html".
Proof. split; reflexivity. Qed.

(** The scenario of the specification. *)
Example sample_run :
  fst (run None sample_dir) = Return O
  /\ map (fun e => rel_path e.1.1 e.1.2) (written (snd (run None sample_dir)))
     = [u "docs/a.html"; u "docs/b.html"; u "docs/index.html"]
  /\ title_of sample_dir (u "a.md") = u "Hello"
  /\ title_of sample_dir (u "b.md") = u "b"
  /\ index_body sample_dir [u "a.md"; u "b.md"]
     = Py.join nl
         [u "<section>"; u "<h2>目录</h2>"; u "<ul class=" ++ dq ++ u "toc" ++ dq ++ u ">";
          u "<li><a href=" ++ dq ++ u "a.html" ++ dq
            ++ u "><div class='title'>Hello</div><div class='file-name'>a.md</div></a></li>";
          u "<li><a href=" ++ dq ++ u "b.html" ++ dq
            ++ u "><div class='title'>b</div><div class='file-name'>b.md</div></a></li>";
          u "</ul>"; u "</section>"].
Proof. repeat split. Qed.

Lemma unreadable_source_aborts_run_witness :
  find_markdown_files broken_dir = [u "a.md"] ++ u "b.md" :: [u "c.md"]
  /\ readable broken_dir (u "b.md") = false
  /\ forallb (convertible broken_dir OUTPUT_DIR) [u "a.md"] = true
  /\ fst (main None [] (World broken_dir [] [])) = Raise (ReadError (u "b.md"))
  /\ written (snd (main None [] (World broken_dir [] [])))
     = [conversion None broken_dir OUTPUT_DIR (u "a.md")].
Proof.
  split; [vm_compute; reflexivity|]. split; [vm_compute; reflexivity|].
  split; [vm_compute; reflexivity|].
  destruct (unreadable_source_aborts_run None [] (World broken_dir [] [])
              [u "a.md"] [u "c.md"] (u "b.md"))
    as (e & k & Hk & E & Hall).
  - vm_compute. reflexivity.
  - vm_compute. reflexivity.
  - destruct Hall as [-> ->]; [vm_compute; reflexivity|].
    rewrite E. split; reflexivity.
Defined.

Lemma main_without_sources_witness :
  find_markdown_files bare_dir = []
  /\ main None [] (World bare_dir [] [])
     = (Return O,
        World bare_dir
          [u "[提示] 未检测到 'markdown' 库，将使用简单文本模式。";
           u "       可选：运行 'pip install markdown' 后，重新执行本脚本，效果更好。";
           u "未在当前目录找到任何 .md 文件。"]
          []).
Proof.
  split; [vm_compute; reflexivity|].
  apply (main_without_sources None [] (World bare_dir [] [])).
  vm_compute. reflexivity.
Defined.

Lemma pages_escape_title_and_source_witness :
  readable escaping_dir (u "a&b's.md") = true
  /\ writable escaping_dir OUTPUT_DIR (out_name (u "a&b's.md")) = true
  /\ forallb (readable escaping_dir) [u "a&b's.md"] = true
  /\ writable escaping_dir OUTPUT_DIR (u "index.html") = true
  /\ (exists w',
        convert_one_file (Some sample_engine) (u "a&b's.md") OUTPUT_DIR
          (World escaping_dir [] [])
        = (Return (u "docs/a&b's.html"), w')
        /\ file_at (disk w') OUTPUT_DIR (u "a&b's.html")
           = Some (page_lit 0 ++ u "&lt;Tom&gt; &amp; &quot;Jerry&quot;"
                   ++ page_lit 1 ++ u "&lt;Tom&gt; &amp; &quot;Jerry&quot;"
                   ++ page_lit 2 ++ u "a&amp;b&#x27;s.md"
                   ++ page_lit 3
                   ++ (u "<p># <Tom> & " ++ dq ++ u "Jerry" ++ dq ++ u "</p>")
                   ++ page_lit 4))
  /\ (exists w',
        build_index_page [u "a&b's.md"] OUTPUT_DIR (World escaping_dir [] [])
        = (Return (u "docs/index.html"), w')
        /\ file_at (disk w') OUTPUT_DIR (u "index.html")
           = Some (page_lit 0 ++ u "网球自学指南"
                   ++ page_lit 1 ++ u "网球自学指南"
                   ++ page_lit 2 ++ u "目录 index"
                   ++ page_lit 3
                   ++ (u "<section>" ++ nl ++ u "<h2>目录</h2>" ++ nl
                       ++ u "<ul class=" ++ dq ++ u "toc" ++ dq ++ u ">" ++ nl
                       ++ u "<li><a href=" ++ dq ++ u "a&amp;b&#x27;s.html" ++ dq
                       ++ u "><div class='title'>&lt;Tom&gt; &amp; &quot;Jerry&quot;</div>"
                       ++ u "<div class='file-name'>a&amp;b&#x27;s.md</div></a></li>" ++ nl
                       ++ u "</ul>" ++ nl ++ u "</section>")
                   ++ page_lit 4)).
Proof.
  split; [vm_compute; reflexivity|]. split; [vm_compute; reflexivity|].
  split; [vm_compute; reflexivity|]. split; [vm_compute; reflexivity|].
  destruct (pages_escape_title_and_source (Some sample_engine) (World escaping_dir [] [])
              (u "a&b's.md") OUTPUT_DIR [u "a&b's.md"]) as [Hpage [Hindex _]].
  split.
  - destruct Hpage as (w' & E & Hfile); [vm_compute; reflexivity ..|].
    exists w'. split; [exact E|].
    replace (u "a&b's.html") with (out_name (u "a&b's.md")) by (vm_compute; reflexivity).
    rewrite Hfile. vm_compute. reflexivity.
  - destruct Hindex as (w' & E & Hfile); [vm_compute; reflexivity ..|].
    exists w'. split; [exact E|]. rewrite Hfile. vm_compute. reflexivity.
Defined.

Lemma convert_unreadable_changes_nothing_witness :
  readable broken_dir (u "b.md") = false
  /\ convert_one_file None (u "b.md") OUTPUT_DIR (World broken_dir [] [])
     = (Raise (ReadError (u "b.md")), World broken_dir [] []).
Proof.
  split; [vm_compute; reflexivity|].
  apply (convert_unreadable_changes_nothing None (u "b.md") OUTPUT_DIR (World broken_dir [] [])).
  vm_compute. reflexivity.
Defined.

(** * Further properties of the code *)

(** ** Lines and stripping *)

Lemma list_ind_pairs {A} (P : list A -> Prop) :
  P [] -> (forall x, P [x]) ->
  (forall x y l, P l -> P (y :: l) -> P (x :: y :: l)) ->
  forall l, P l.
Proof.
  intros H0 H1 H2 l.
  assert (H : P l /\ forall x, P (x :: l)); [|apply H].
  induction l as [|y l [IH1 IH2]]; [now split|].
  split; [apply IH2|]. intros x. apply H2; [exact IH1|apply IH2].
Qed.

(** A line of [splitlines] consists of characters of the text. *)
Lemma splitlines_from_Forall (P : N -> Prop) (s cur : str) :
  Forall P cur -> Forall P s -> Forall (Forall P) (Py.splitlines_from cur s).
Proof.
  revert cur. induction s as [|x|x y l IHl IHyl] using list_ind_pairs; intros cur Hcur Hs.
  - cbn [Py.splitlines_from]. destruct cur; [constructor|].
    repeat constructor. now apply Forall_rev.
  - apply Forall_cons in Hs as [Hx _]. cbn [Py.splitlines_from].
    destruct (Py.is_linebreak x).
    + repeat constructor. now apply Forall_rev.
    + repeat constructor. apply Forall_rev. now constructor.
  - apply Forall_cons in Hs as [Hx Hs]. cbn [Py.splitlines_from].
    destruct (Py.is_linebreak x).
    + constructor; [now apply Forall_rev|].
      destruct ((x =? 13) && (y =? 10)).
      * apply IHl; [constructor|]. now apply Forall_cons in Hs as [_ ?].
      * apply IHyl; [constructor|exact Hs].
    + apply IHyl; [now constructor|exact Hs].
Qed.

(** No line of [splitlines] holds a line boundary. *)
Lemma splitlines_from_no_linebreak (s cur : str) :
  Forall (fun c => Py.is_linebreak c = false) cur ->
  Forall (Forall (fun c => Py.is_linebreak c = false)) (Py.splitlines_from cur s).
Proof.
  revert cur. induction s as [|x|x y l IHl IHyl] using list_ind_pairs; intros cur Hcur.
  - cbn [Py.splitlines_from]. destruct cur; [constructor|].
    repeat constructor. now apply Forall_rev.
  - cbn [Py.splitlines_from]. destruct (Py.is_linebreak x) eqn:Hx.
    + repeat constructor. now apply Forall_rev.
    + repeat constructor. apply Forall_rev. now constructor.
  - cbn [Py.splitlines_from]. destruct (Py.is_linebreak x) eqn:Hx.
    + constructor; [now apply Forall_rev|].
      destruct ((x =? 13) && (y =? 10)); [apply IHl|apply IHyl]; constructor.
    + apply IHyl. now constructor.
Qed.

Lemma drop_while_Forall (P : N -> Prop) (p : N -> bool) (s : str) :
  Forall P s -> Forall P (Py.drop_while p s).
Proof.
  induction 1 as [|c s Hc Hs IH]; cbn [Py.drop_while]; [constructor|].
  destruct (p c); [exact IH|now constructor].
Qed.

Lemma strip_Forall (P : N -> Prop) (s : str) :
  Forall P s -> Forall P (Py.strip s).
Proof.
  intros H. unfold Py.strip, Py.rstrip, Py.lstrip.
  now apply Forall_rev, drop_while_Forall, Forall_rev, drop_while_Forall.
Qed.

Lemma drop_while_shape (p : N -> bool) (s : str) :
  Py.drop_while p s = [] \/ exists c r, Py.drop_while p s = c :: r /\ p c = false.
Proof.
  induction s as [|c s IH]; cbn [Py.drop_while]; [now left|].
  destruct (p c) eqn:Hc; [exact IH|]. right. now exists c, s.
Qed.

Lemma drop_while_idem (p : N -> bool) (s : str) :
  Py.drop_while p (Py.drop_while p s) = Py.drop_while p s.
Proof.
  destruct (drop_while_shape p s) as [->|(c & r & -> & Hc)]; [reflexivity|].
  cbn [Py.drop_while]. now rewrite Hc.
Qed.

Lemma rstrip_idem (s : str) : Py.rstrip (Py.rstrip s) = Py.rstrip s.
Proof. unfold Py.rstrip. now rewrite rev_involutive, drop_while_idem. Qed.

(** Stripping twice is stripping once. *)
Lemma strip_idem (s : str) : Py.strip (Py.strip s) = Py.strip s.
Proof.
  unfold Py.strip at 2 3. unfold Py.lstrip.
  destruct (drop_while_shape Py.isspace s) as [->|(c & r & -> & Hc)]; [reflexivity|].
  rewrite rstrip_cons by exact Hc. unfold Py.strip, Py.lstrip.
  cbn [Py.drop_while]. rewrite Hc.
  rewrite rstrip_cons by exact Hc. now rewrite rstrip_idem.
Qed.

Lemma find_heading_none (lines : list str) :
  Forall (fun line => is_heading_line line = false) lines ->
  List.find is_heading_line lines = None.
Proof.
  induction 1 as [|line rest Hl _ IH]; [reflexivity|].
  cbn [List.find]. now rewrite Hl.
Qed.

(** ** More on the title guesser *)

(** X1.  A text that holds no marker character at all gets the fallback as
    its title. *)
Theorem guess_title_without_marker (text default : str) :
  Forall (fun c => c <> 35) text ->
  guess_title text default = default.
Proof.
  intros Hno. apply guess_title_lines_none, find_heading_none.
  assert (Hlines : Forall (Forall (fun c => c <> 35)) (Py.splitlines text)).
  { apply splitlines_from_Forall; [constructor|exact Hno]. }
  eapply Forall_impl; [exact Hlines|]. intros line Hline.
  destruct (is_heading_line line) eqn:E; [|reflexivity].
  destruct (startswith_marker _ E) as [r Hr].
  apply (strip_Forall _ _) in Hline. rewrite Hr in Hline.
  apply Forall_cons in Hline as [Hc _]. now contradiction Hc.
Qed.

Lemma guess_title_without_marker_witness :
  Forall (fun c => c <> 35) (u "No heading here.")
  /\ guess_title (u "No heading here.") (u "b") = u "b".
Proof.
  assert (H : Forall (fun c => c <> 35) (u "No heading here.")).
  { apply Forall_forall. intros c Hc. vm_compute in Hc.
    repeat (apply elem_of_cons in Hc as [->|Hc]; [discriminate|]).
    now apply elem_of_nil in Hc. }
  split; [exact H|]. now apply guess_title_without_marker.
Defined.

(** X2.  A title that is not the fallback is not empty, has no whitespace at
    its ends and holds no line boundary. *)
Theorem guess_title_clean (text default : str) :
  guess_title text default = default
  \/ (guess_title text default <> []
      /\ Py.strip (guess_title text default) = guess_title text default
      /\ Forall (fun c => Py.is_linebreak c = false) (guess_title text default)).
Proof.
  unfold guess_title.
  assert (Hlines : Forall (Forall (fun c => Py.is_linebreak c = false)) (Py.splitlines text)).
  { apply splitlines_from_no_linebreak. constructor. }
  induction Hlines as [|line rest Hline _ IH]; cbn [guess_title_lines]; [now left|].
  destruct (Py.startswith (Py.strip line) (u "# ")); [|exact IH].
  destruct (Py.strip (Py.lstrip_chars (u "# ") (Py.strip line))) as [|c t] eqn:E;
    cbn [Py.or_]; [now left|].
  right. split; [discriminate|]. rewrite <- E. split; [apply strip_idem|].
  apply strip_Forall, drop_while_Forall, strip_Forall, Hline.
Qed.

(** ** Names of pages *)

(** X4.  The page of a source [s.md] with a non-empty [s] is [s.html]. *)
Theorem out_name_of_md (s : str) :
  s <> [] -> out_name (s ++ u ".md") = s ++ u ".html".
Proof.
  intros Hs. unfold out_name. rewrite stem_md. now destruct s.
Qed.

Lemma out_name_of_md_witness :
  u "chapter.1" <> [] /\ out_name (u "chapter.1" ++ u ".md") = u "chapter.1" ++ u ".html".
Proof.
  split; [discriminate|]. apply out_name_of_md. discriminate.
Defined.

(** X5.  Two sources whose names end with [.md] have the same page name
    exactly when they are the same source or the two sources [.md] and
    [.md.md]. *)
Theorem page_name_collisions (a b : str) :
  glob_md a = true -> glob_md b = true ->
  (out_name a = out_name b
   <-> a = b \/ (a = u ".md" /\ b = u ".md.md") \/ (a = u ".md.md" /\ b = u ".md")).
Proof.
  intros Ha Hb. split; [now apply out_name_inj|].
  intros [->|[[-> ->]|[-> ->]]]; reflexivity.
Qed.

Lemma page_name_collisions_witness :
  glob_md (u "a.md") = true /\ glob_md (u "a.b.md") = true
  /\ (out_name (u "a.md") = out_name (u "a.b.md")
      <-> u "a.md" = u "a.b.md"
          \/ (u "a.md" = u ".md" /\ u "a.b.md" = u ".md.md")
          \/ (u "a.md" = u ".md.md" /\ u "a.b.md" = u ".md")).
Proof.
  split; [reflexivity|]. split; [reflexivity|].
  apply page_name_collisions; reflexivity.
Defined.

(** X6.  Among the sources whose names end with [.md], only [index.md] has
    the page name [index.html], the name of the index page. *)
Theorem index_page_name (a : str) :
  glob_md a = true -> (out_name a = u "index.html" <-> a = u "index.md").
Proof.
  intros Ha. split; [now apply out_name_index|]. now intros ->.
Qed.

Lemma index_page_name_witness :
  glob_md (u "index.md") = true
  /\ (out_name (u "index.md") = u "index.html" <-> u "index.md" = u "index.md").
Proof. split; [reflexivity|]. apply index_page_name. reflexivity. Defined.

(** ** More on the converter and the index builder *)

Section MoreConverterFacts.

Variable markdown : option (str -> str).


(** X7.  Whatever its outcome, [convert_one_file] leaves every entry of the
    base directory other than the output directory as it is, leaves every
    entry of the output directory other than the page of its source as it
    is, and prints nothing. *)
Theorem convert_touches_one_file (src dst : str) (w : world) :
  (forall k, k <> dst ->
     disk (snd (convert_one_file markdown src dst w)) !! k = disk w !! k)
  /\ (forall n, n <> out_name src ->
        children_of (disk (snd (convert_one_file markdown src dst w))) dst !! n
        = children_of (disk w) dst !! n)
  /\ console (snd (convert_one_file markdown src dst w)) = console w.
Proof.
  rewrite (convert_from_view markdown (disk w)) by apply same_view_refl.
  destruct (convertible (disk w) dst src); cbn [snd disk console]; [|now repeat split].
  split; [|split; [|reflexivity]].
  - intros k Hk. now apply put_file_lookup_ne.
  - intros n Hn. unfold put_file. rewrite children_of_insert.
    now rewrite lookup_insert_ne by congruence.
Qed.


(** X9.  When the output directory does not exist and the source can be
    read, [convert_one_file] makes the directory, and the page of the source
    is then its only entry. *)
Theorem convert_makes_output_dir (src dst : str) (w : world) :
  readable (disk w) src = true ->
  disk w !! dst = None ->
  disk (snd (convert_one_file markdown src dst w)) !! dst
  = Some (Dir {[out_name src := LFile (Some (converted_page markdown (disk w) src))]}).
Proof.
  intros Hr Hd. rewrite convert_ok.
  - cbn [snd disk]. rewrite put_file_lookup. unfold children_of. rewrite Hd.
    now rewrite insert_empty.
  - exact Hr.
  - unfold writable. now rewrite Hd.
Qed.


(** X11.  For an empty list of sources [build_index_page] still writes an
    index page: the heading of the contents and an empty list. *)
Theorem build_index_empty (dst : str) (w : world) :
  writable (disk w) dst (u "index.html") = true ->
  exists w',
    build_index_page [] dst w = (Return (rel_path dst (u "index.html")), w')
    /\ file_at (disk w') dst (u "index.html")
       = Some (filled_template
                 (Py.html_escape (u "网球自学指南")) (Py.html_escape (u "目录 index"))
                 (u "<section>" ++ nl ++ u "<h2>目录</h2>" ++ nl
                  ++ u "<ul class=" ++ dq ++ u "toc" ++ dq ++ u ">" ++ nl
                  ++ u "</ul>" ++ nl ++ u "</section>")).
Proof.
  intros Hw. eexists. split; [now apply build_index_ok|].
  cbn [disk]. rewrite file_at_put_file. reflexivity.
Qed.

Lemma index_items_fails (pre post : list str) (p : str) (w : world) :
  forallb (readable (disk w)) pre = true ->
  readable (disk w) p = false ->
  index_items (pre ++ p :: post) w = (Raise (ReadError p), w).
Proof.
  intros Hpre Hp. unfold index_items.
  induction pre as [|src pre IH]; cbn [app for_collect].
  - unfold bind at 1. unfold bind at 1. now rewrite (read_text_fails _ _ Hp).
  - cbn [forallb] in Hpre. apply andb_prop in Hpre as [Hr Hpre].
    unfold bind at 1. unfold bind at 1.
    rewrite (read_text_ok _ _ _ (readable_text_of _ _ Hr)).
    unfold ret at 1. unfold bind at 1. now rewrite (IH Hpre).
Qed.

(** X12.  When a source of its list cannot be read, [build_index_page]
    raises the read error of the first such source and changes nothing: the
    output directory is not made and no index page is written. *)
Theorem build_index_unreadable (pre post : list str) (p dst : str) (w : world) :
  forallb (readable (disk w)) pre = true ->
  readable (disk w) p = false ->
  build_index_page (pre ++ p :: post) dst w = (Raise (ReadError p), w).
Proof.
  intros Hpre Hp. unfold build_index_page. unfold bind at 1.
  now rewrite (index_items_fails _ _ _ _ Hpre Hp).
Qed.

End MoreConverterFacts.


Lemma convert_makes_output_dir_witness :
  readable sample_dir (u "a.md") = true
  /\ sample_dir !! OUTPUT_DIR = None
  /\ disk (snd (convert_one_file None (u "a.md") OUTPUT_DIR (World sample_dir [] []))) !! OUTPUT_DIR
     = Some (Dir {[out_name (u "a.md") := LFile (Some (converted_page None sample_dir (u "a.md")))]}).
Proof.
  split; [vm_compute; reflexivity|]. split; [vm_compute; reflexivity|].
  apply (convert_makes_output_dir None (u "a.md") OUTPUT_DIR (World sample_dir [] []));
    vm_compute; reflexivity.
Defined.

Lemma build_index_empty_witness :
  writable sample_dir OUTPUT_DIR (u "index.html") = true
  /\ exists w',
       build_index_page [] OUTPUT_DIR (World sample_dir [] [])
       = (Return (rel_path OUTPUT_DIR (u "index.html")), w').
Proof.
  split; [vm_compute; reflexivity|].
  destruct (build_index_empty OUTPUT_DIR (World sample_dir [] [])) as (w' & E & _).
  - vm_compute. reflexivity.
  - now exists w'.
Defined.

Lemma build_index_unreadable_witness :
  forallb (readable broken_dir) [u "a.md"] = true
  /\ readable broken_dir (u "b.md") = false
  /\ build_index_page ([u "a.md"] ++ u "b.md" :: [u "c.md"]) OUTPUT_DIR (World broken_dir [] [])
     = (Raise (ReadError (u "b.md")), World broken_dir [] []).
Proof.
  split; [vm_compute; reflexivity|]. split; [vm_compute; reflexivity|].
  apply (build_index_unreadable [u "a.md"] [u "c.md"] (u "b.md") OUTPUT_DIR (World broken_dir [] []));
    vm_compute; reflexivity.
Defined.

(** ** More on the driver *)

Lemma replay_lookup_ne (dir : str) (log : list (str * str * str)) (d : gmap str node) (k : str) :
  Forall (fun e => e.1.1 = dir) log -> k <> dir -> replay log d !! k = d !! k.
Proof.
  intros Hdir Hk. induction log as [|e log IH] using rev_ind; [reflexivity|].
  apply Forall_app in Hdir as [Hlog He]. apply Forall_cons in He as [He _].
  rewrite replay_snoc, He, put_file_lookup_ne by exact Hk. now apply IH.
Qed.

Lemma replay_children_ne (dir : str) (log : list (str * str * str)) (d : gmap str node) (n : str) :
  Forall (fun e => e.1.1 = dir) log ->
  n ∉ map (fun e => e.1.2) log ->
  children_of (replay log d) dir !! n = children_of d dir !! n.
Proof.
  intros Hdir Hn. induction log as [|e log IH] using rev_ind; [reflexivity|].
  apply Forall_app in Hdir as [Hlog He]. apply Forall_cons in He as [He _].
  rewrite map_app in Hn. cbn [map] in Hn.
  rewrite replay_snoc, He. unfold put_file. rewrite children_of_insert.
  rewrite lookup_insert_ne.
  - apply IH; [exact Hlog|]. intros Hin. apply Hn, elem_of_app. now left.
  - intros E. apply Hn, elem_of_app. right. rewrite E. now left.
Qed.


Lemma converted_subset (d : gmap str node) (dir : str) (md_files : list str) (src : str) :
  src ∈ converted d dir md_files -> src ∈ md_files.
Proof.
  induction md_files as [|x rest IH]; cbn [converted]; [trivial|].
  destruct (convertible d dir x); [|now intros ?%elem_of_nil].
  intros [->|Hin]%elem_of_cons; [now left|]. right. now apply IH.
Qed.

Section MoreDriverFacts.

Variable markdown : option (str -> str).

Lemma main_log_names (d : gmap str node) (n : str) :
  n ∈ map (fun e => e.1.2) (main_log markdown d) ->
  n = u "index.html" \/ n ∈ map out_name (find_markdown_files d).
Proof.
  unfold main_log. rewrite map_app, map_map. cbn [conversion fst snd].
  intros [Hn|Hn]%elem_of_app.
  - right. apply list_elem_of_fmap in Hn as (src & -> & Hin).
    apply list_elem_of_fmap. exists src. split; [reflexivity|].
    now apply converted_subset in Hin.
  - left. destruct (find_markdown_files d); [now apply elem_of_nil in Hn|].
    destruct (main_outcome d); [|now apply elem_of_nil in Hn].
    now apply list_elem_of_singleton in Hn.
Qed.

(** X13.  [main] never returns a status other than 0: whatever goes wrong
    is an exception. *)
Theorem main_returns_zero (argv : list str) (w : world) (n : nat) :
  fst (main markdown argv w) = Return n -> n = O.
Proof.
  destruct (main_from_view markdown argv (disk w) w (same_view_refl _ _)) as [E _].
  rewrite E. cbn [fst]. unfold main_outcome.
  destruct (find_markdown_files (disk w)); [now intros [= <-]|].
  destruct (loop_outcome _ _ _); [|discriminate].
  destruct (writable _ _ _); [now intros [= <-]|discriminate].
Qed.

(** X14.  A run in which every discovered source converts and the index can
    be written returns 0.  It writes the pages of the sources in their order
    and then the index page, and prints the advisory (without engine), the
    count of the sources, one line per source in their order, the line of
    the index page and the closing line. *)
Theorem run_all_convertible (d : gmap str node) :
  find_markdown_files d <> [] ->
  forallb (convertible d OUTPUT_DIR) (find_markdown_files d) = true ->
  writable d OUTPUT_DIR (u "index.html") = true ->
  run markdown d
  = (Return O,
     World
       (replay (map (conversion markdown d OUTPUT_DIR) (find_markdown_files d)
                ++ [(OUTPUT_DIR, u "index.html", index_page d (find_markdown_files d))]) d)
       (advisory markdown
        ++ [found_line (find_markdown_files d)]
        ++ map progress_line (find_markdown_files d)
        ++ [u "- 目录首页  ->  " ++ rel_path OUTPUT_DIR (u "index.html");
            u "完成！可以在 'docs' 文件夹中用浏览器或 GitHub Pages 打开这些 HTML 文件（入口为 index.html）。"])
       (map (conversion markdown d OUTPUT_DIR) (find_markdown_files d)
        ++ [(OUTPUT_DIR, u "index.html", index_page d (find_markdown_files d))])).
Proof.
  intros Hne Hall Hw. unfold run.
  destruct (main_from_view markdown [] d (World d [] []) (same_view_refl _ _)) as [E _].
  rewrite E. clear E. cbn [disk console written app].
  destruct (loop_outcome_all _ _ _ Hall) as [Hloop Hconv].
  unfold main_log, main_lines, main_outcome. rewrite Hloop, Hw, Hconv.
  now destruct (find_markdown_files d).
Qed.

(** X15.  Whatever its outcome, a run leaves every entry of the base
    directory other than the output directory as it is, the sources among
    them, and leaves every entry of the output directory as it is that is
    neither [index.html] nor the page of a discovered source: pages of
    sources that are gone stay. *)
Theorem run_touches_only_outputs (argv : list str) (w : world) :
  (forall k, k <> OUTPUT_DIR ->
     disk (snd (main markdown argv w)) !! k = disk w !! k)
  /\ (forall n, n <> u "index.html" ->
        n ∉ map out_name (find_markdown_files (disk w)) ->
        children_of (disk (snd (main markdown argv w))) OUTPUT_DIR !! n
        = children_of (disk w) OUTPUT_DIR !! n).
Proof.
  destruct (main_from_view markdown argv (disk w) w (same_view_refl _ _)) as [E _].
  rewrite E. cbn [snd disk]. split.
  - intros k Hk. apply (replay_lookup_ne OUTPUT_DIR); [apply main_log_dir|exact Hk].
  - intros n Hn1 Hn2. apply replay_children_ne; [apply main_log_dir|].
    intros Hin. now apply main_log_names in Hin as [?|?].
Qed.


(** X18.  When a regular file has the name of the output directory and the
    first discovered source can be read, the run ends with the error of
    [mkdir]: it has printed the advisory and the count of the sources, and
    has written nothing. *)
Theorem run_output_blocked (d : gmap str node) (x : str) (xs : list str) :
  is_source d OUTPUT_DIR = true ->
  find_markdown_files d = x :: xs ->
  readable d x = true ->
  run markdown d
  = (Raise (MkdirError OUTPUT_DIR),
     World d (advisory markdown ++ [found_line (x :: xs)]) []).
Proof.
  intros Hfile Hfiles Hr. unfold run.
  destruct (main_from_view markdown [] d (World d [] []) (same_view_refl _ _)) as [E _].
  rewrite E. clear E. cbn [disk console written app].
  assert (Hc : convertible d OUTPUT_DIR x = false).
  { unfold convertible, writable. unfold is_source in Hfile.
    destruct (d !! OUTPUT_DIR) as [[?|?]|]; try discriminate. apply andb_false_r. }
  unfold main_log, main_lines, main_outcome. rewrite Hfiles.
  cbn [loop_outcome converted]. rewrite Hc.
  unfold conversion_error, write_error. rewrite Hr, Hfile.
  cbn [map app replay foldl]. reflexivity.
Qed.

End MoreDriverFacts.

(** X19.  Discovery depends only on which names of the directory are
    regular files: not on what the files hold, and not on the directories
    or on what is in them. *)
Theorem discovery_ignores_contents (d d' : gmap str node) :
  (forall name, is_source d' name = is_source d name) ->
  find_markdown_files d' = find_markdown_files d.
Proof.
  intros H.
  apply (StronglySorted_unique str_le).
  - apply StronglySorted_merge_sort; apply _.
  - apply StronglySorted_merge_sort; apply _.
  - apply NoDup_Permutation; try apply find_markdown_files_NoDup.
    intros name. rewrite !find_markdown_files_elem, <- !is_source_spec.
    now rewrite H.
Qed.

Lemma endswith_app (s p : str) : Py.endswith (s ++ p) p = true.
Proof. unfold Py.endswith. rewrite rev_app_distr. apply startswith_app. Qed.

(** X20.  Whatever the title, the source name and the body are, the
    template formats without error, and the page begins with the document
    type and ends with the closing tag of the document and a line feed. *)
Theorem page_template_formats (title source_name content : str) :
  exists page,
    format HTML_TEMPLATE
      [(u "title", title); (u "source_name", source_name); (u "content", content)]
    = Some page
    /\ Py.startswith page (u "<!DOCTYPE html>") = true
    /\ Py.endswith page (u "</html>" ++ nl) = true.
Proof.
  exists (filled_template title source_name content).
  split; [apply format_template|]. unfold filled_template. split.
  - apply startswith_spec. exists (drop 15 (page_lit 0) ++ title ++ page_lit 1 ++ title
      ++ page_lit 2 ++ source_name ++ page_lit 3 ++ content ++ page_lit 4).
    rewrite (app_assoc (u "<!DOCTYPE html>")). f_equal.
  - remember (u "</html>" ++ nl) as suffix eqn:Hs.
    replace (page_lit 4) with ((nl ++ u "  </main>" ++ nl ++ u "</body>" ++ nl) ++ suffix)
      by now subst suffix.
    rewrite !app_assoc. apply endswith_app.
Qed.

Lemma main_returns_zero_witness :
  fst (main None [] (World sample_dir [] [])) = Return O /\ O = O.
Proof.
  split; [vm_compute; reflexivity|].
  apply (main_returns_zero None [] (World sample_dir [] []) O).
  vm_compute. reflexivity.
Defined.

Lemma run_all_convertible_witness :
  find_markdown_files sample_dir <> []
  /\ forallb (convertible sample_dir OUTPUT_DIR) (find_markdown_files sample_dir) = true
  /\ writable sample_dir OUTPUT_DIR (u "index.html") = true
  /\ fst (run None sample_dir) = Return O
  /\ map (fun e => e.1.2) (written (snd (run None sample_dir)))
     = map out_name (find_markdown_files sample_dir) ++ [u "index.html"].
Proof.
  split; [vm_compute; discriminate|]. split; [vm_compute; reflexivity|].
  split; [vm_compute; reflexivity|].
  rewrite (run_all_convertible None sample_dir).
  - cbn [fst snd written]. split; [reflexivity|].
    rewrite map_app, map_map. reflexivity.
  - vm_compute. discriminate.
  - vm_compute. reflexivity.
  - vm_compute. reflexivity.
Defined.

Lemma run_keeps_every_page_witness :
  find_markdown_files sample_dir <> []
  /\ forallb (convertible sample_dir OUTPUT_DIR) (find_markdown_files sample_dir) = true
  /\ writable sample_dir OUTPUT_DIR (u "index.html") = true
  /\ (u "index.md" ∉ find_markdown_files sample_dir)
  /\ (~ (u ".md" ∈ find_markdown_files sample_dir
         /\ u ".md.md" ∈ find_markdown_files sample_dir))
  /\ file_at (disk (snd (run None sample_dir))) OUTPUT_DIR (out_name (u "b.md"))
     = Some (converted_page None sample_dir (u "b.md")).
Proof.
  assert (Hfiles : find_markdown_files sample_dir = [u "a.md"; u "b.md"])
    by (vm_compute; reflexivity).
  assert (H1 : u "index.md" ∉ find_markdown_files sample_dir).
  { rewrite Hfiles. intros H.
    repeat (apply elem_of_cons in H as [H|H]; [discriminate|]).
    now apply elem_of_nil in H. }
  assert (H2 : ~ (u ".md" ∈ find_markdown_files sample_dir
                  /\ u ".md.md" ∈ find_markdown_files sample_dir)).
  { rewrite Hfiles. intros [H _].
    repeat (apply elem_of_cons in H as [H|H]; [discriminate|]).
    now apply elem_of_nil in H. }
  split; [vm_compute; discriminate|]. split; [vm_compute; reflexivity|].
  split; [vm_compute; reflexivity|]. split; [exact H1|]. split; [exact H2|].
  destruct (run_keeps_every_page None sample_dir) as (_ & _ & Hpages & _);
    try exact H1; try exact H2.
  - vm_compute. discriminate.
  - vm_compute. reflexivity.
  - vm_compute. reflexivity.
  - apply Hpages. rewrite Hfiles. right. left.
Defined.


Lemma run_output_blocked_witness :
  is_source blocked_dir OUTPUT_DIR = true
  /\ find_markdown_files blocked_dir = [u "a.md"]
  /\ readable blocked_dir (u "a.md") = true
  /\ run None blocked_dir
     = (Raise (MkdirError OUTPUT_DIR),
        World blocked_dir (advisory None ++ [found_line [u "a.md"]]) []).
Proof.
  split; [vm_compute; reflexivity|]. split; [vm_compute; reflexivity|].
  split; [vm_compute; reflexivity|].
  apply (run_output_blocked None blocked_dir (u "a.md") []); vm_compute; reflexivity.
Defined.

Lemma discovery_ignores_contents_witness :
  (forall name, is_source (<[u "a.md" := File None]> sample_dir) name = is_source sample_dir name)
  /\ find_markdown_files (<[u "a.md" := File None]> sample_dir) = find_markdown_files sample_dir.
Proof.
  assert (H : forall name,
    is_source (<[u "a.md" := File None]> sample_dir) name = is_source sample_dir name).
  { intros name. unfold is_source. destruct (decide (name = u "a.md")) as [->|Hne].
    - rewrite lookup_insert_eq. vm_compute. reflexivity.
    - now rewrite lookup_insert_ne by congruence. }
  split; [exact H|]. now apply discovery_ignores_contents.
Defined.

(** ** Texts that UTF-8 encodes *)

Lemma encodable_Forall (s : str) :
  encodable s = true <-> Forall (fun c => is_surrogate c = false) s.
Proof.
  unfold encodable. rewrite forallb_forall, Forall_forall. split.
  - intros H c Hc. apply list_elem_of_In, H in Hc. now apply negb_true_iff in Hc.
  - intros H c Hc. apply negb_true_iff, H, list_elem_of_In, Hc.
Qed.

Lemma encodable_app (a b : str) :
  encodable a = true -> encodable b = true -> encodable (a ++ b) = true.
Proof. unfold encodable. intros Ha Hb. now rewrite forallb_app, Ha, Hb. Qed.

Lemma escaped_text_encodable (s : str) :
  encodable s = true -> encodable (escaped_text s) = true.
Proof.
  unfold escaped_text. induction s as [|c s IH]; [reflexivity|].
  unfold encodable at 1. cbn [forallb flat_map]. intros H.
  apply andb_prop in H as [Hc Hs]. apply encodable_app; [|now apply IH].
  unfold escape_char.
  repeat (match goal with |- context [if ?b then _ else _] => destruct b end;
          [reflexivity|]).
  unfold encodable. cbn [forallb]. now rewrite Hc.
Qed.

Lemma guess_title_Forall (P : N -> Prop) (text default : str) :
  Forall P text -> Forall P default -> Forall P (guess_title text default).
Proof.
  intros Ht Hd. unfold guess_title.
  assert (Hlines : Forall (Forall P) (Py.splitlines text)).
  { apply splitlines_from_Forall; [constructor|exact Ht]. }
  induction Hlines as [|line rest Hline _ IH]; cbn [guess_title_lines]; [exact Hd|].
  destruct (Py.startswith (Py.strip line) (u "# ")); [|exact IH].
  assert (Hs : Forall P (Py.strip (Py.lstrip_chars (u "# ") (Py.strip line)))).
  { apply strip_Forall, drop_while_Forall, strip_Forall, Hline. }
  destruct (Py.strip (Py.lstrip_chars (u "# ") (Py.strip line))); [exact Hd|exact Hs].
Qed.

Lemma stem_Forall (P : N -> Prop) (name : str) :
  Forall P name -> Forall P (stem name).
Proof.
  intros H. unfold stem. destruct (rfind 46 name) as [i|]; [|exact H].
  destruct ((0 <? i)%nat && (i <? length name - 1)%nat); [|exact H].
  now apply Forall_take.
Qed.

Lemma title_encodable (d : gmap str node) (src : str) :
  encodable src = true -> encodable (text_of d src) = true ->
  encodable (title_of d src) = true.
Proof.
  rewrite !encodable_Forall. intros Hs Ht. unfold title_of.
  apply guess_title_Forall; [exact Ht|]. now apply stem_Forall.
Qed.

Lemma filled_template_encodable (title source_name content : str) :
  encodable title = true -> encodable source_name = true ->
  encodable content = true ->
  encodable (filled_template title source_name content) = true.
Proof.
  intros Ht Hs Hc. unfold filled_template.
  repeat (apply encodable_app; [first [assumption|vm_compute; reflexivity]|]).
  vm_compute. reflexivity.
Qed.

Lemma toc_body_encodable (items : list (str * str * str)) :
  Forall (fun item => encodable item.1.1 = true /\ encodable item.1.2 = true
                      /\ encodable item.2 = true) items ->
  encodable (toc_body items) = true.
Proof.
  intros H. unfold toc_body.
  repeat (apply encodable_app; [reflexivity|]).
  apply encodable_app; [|reflexivity].
  induction H as [|[[name title] href] items (Hn & Ht & Hh) _ IH]; [reflexivity|].
  cbn [flat_map fst snd] in *. apply encodable_app; [|exact IH].
  apply encodable_app; [|reflexivity]. unfold toc_entry_text.
  repeat (apply encodable_app;
          [first [reflexivity|now apply escaped_text_encodable]|]).
  reflexivity.
Qed.

(** X21.  A page holds a surrogate code point, which UTF-8 cannot encode,
    only if the name of a source, the text of a source or the output of the
    engine holds one: the template, the escaping and the title guesser add
    none.  This holds for the converted page of a source and for the index
    page of a list of sources. *)
Theorem pages_encodable (markdown : option (str -> str)) (d : gmap str node)
    (src : str) (md_files : list str) :
  (encodable src = true ->
   encodable (text_of d src) = true ->
   (forall engine, markdown = Some engine -> encodable (engine (text_of d src)) = true) ->
   encodable (converted_page markdown d src) = true)
  /\ (forallb encodable md_files = true ->
      forallb (fun src => encodable (text_of d src)) md_files = true ->
      encodable (index_page d md_files) = true).
Proof.
  split.
  - intros Hs Ht He. unfold converted_page. apply filled_template_encodable.
    + rewrite html_escape_flat_map. now apply escaped_text_encodable, title_encodable.
    + rewrite html_escape_flat_map. now apply escaped_text_encodable.
    + unfold render_markdown. destruct markdown as [engine|]; [now apply He|].
      rewrite html_escape_flat_map.
      apply encodable_app; [reflexivity|].
      apply encodable_app; [now apply escaped_text_encodable|reflexivity].
  - intros Hs Ht. unfold index_page, index_body. rewrite index_parts_text.
    apply filled_template_encodable; [reflexivity|reflexivity|].
    apply toc_body_encodable, Forall_forall. intros item Hin.
    apply list_elem_of_fmap in Hin as (x & -> & Hx). apply list_elem_of_In in Hx.
    cbn [index_entry fst snd].
    pose proof (proj1 (forallb_forall _ _) Hs x Hx) as Hx1.
    pose proof (proj1 (forallb_forall _ _) Ht x Hx) as Hx2. cbn beta in Hx2.
    split; [exact Hx1|]. split; [now apply title_encodable|].
    unfold out_name. apply encodable_app; [|reflexivity].
    apply encodable_Forall, stem_Forall, encodable_Forall, Hx1.
Qed.

Lemma pages_encodable_witness :
  encodable (u "a&b's.md") = true
  /\ encodable (text_of escaping_dir (u "a&b's.md")) = true
  /\ forallb encodable [u "a&b's.md"] = true
  /\ forallb (fun src => encodable (text_of escaping_dir src)) [u "a&b's.md"] = true
  /\ encodable (converted_page (Some sample_engine) escaping_dir (u "a&b's.md")) = true
  /\ encodable (index_page escaping_dir [u "a&b's.md"]) = true.
Proof.
  split; [vm_compute; reflexivity|]. split; [vm_compute; reflexivity|].
  split; [vm_compute; reflexivity|]. split; [vm_compute; reflexivity|].
  destruct (pages_encodable (Some sample_engine) escaping_dir (u "a&b's.md") [u "a&b's.md"])
    as [Hpage Hindex].
  split.
  - apply Hpage; [vm_compute; reflexivity ..|].
    intros engine [= <-]. vm_compute. reflexivity.
  - apply Hindex; vm_compute; reflexivity.
Defined.

Example splitlines_ex :
  Py.splitlines (u "a" ++ [13; 10] ++ u "b" ++ nl ++ nl ++ u "c" ++ nl)
  = [u "a"; u "b"; []; u "c"].
Proof. reflexivity. Qed.

Example utf8_ex : u "目录 index" = [30446; 24405; 32; 105; 110; 100; 101; 120].
Proof. reflexivity. Qed.

Example guess_title_ex1 :
  guess_title (u "intro" ++ nl ++ u "  # Hello  " ++ nl ++ u "# Other") (u "d") = u "Hello".
Proof. reflexivity. Qed.

Example str_of_nat_ex : Py.str_of_nat 12 = u "12".
Proof. reflexivity. Qed.
